(** * CinderFFmpeg: the MovieGl playback pump (src/CinderFFmpeg.cpp)

    A shallow embedding of [ph::ffmpeg::MovieGl]: the per-tick frame pump
    [update], the plane texture cache, the compositor pass and the transport
    operations.  C++ [double] values are binary64 primitive floats, C++ [int]
    values are [Z], nullable [shared_ptr]/[unique_ptr] members are [option]s.

    The collaborators the class only calls (MovieDecoder, AudioRenderer,
    ci::Timer) are interfaces: type classes whose methods are the calls the
    source makes, each threading the collaborator's state.  The OpenGL
    objects the class creates are kept in an explicit context (a name
    allocator and a store of images), so that two references to one texture
    alias. *)

From Stdlib Require Import ZArith QArith Qround Floats Lia List Bool String.
From stdpp Require Import base option gmap relations.
Import ListNotations.

Local Open Scope Z_scope.
Set Warnings "-inexact-float".

(** ** Results of a call

    A call completes, dereferences a null smart pointer, or (in this model of
    the unbounded [while] loops) runs out of fuel. *)

Inductive Outcome (A : Type) : Type :=
| Done (a : A)
| NullDeref
| OutOfFuel.

Arguments Done {A} a.
Arguments NullDeref {A}.
Arguments OutOfFuel {A}.

(** ** Frames *)

(** [VideoFrame]: the getters [update] reads. *)
Record VideoFrame : Type := mkVideoFrame {
  getWidth : Z;
  getHeight : Z;
  getYLineSize : Z;
  getULineSize : Z;
  getVLineSize : Z;
  getYPlane : list Z;
  getUPlane : list Z;
  getVPlane : list Z
}.

(** [VideoFrame videoFrame;] a default-constructed frame. *)
Definition VideoFrame_new : VideoFrame := mkVideoFrame 0 0 0 0 0 [] [] [].

(** ** Collaborator interfaces *)

Module MovieDecoder.
Class ops (AudioFrame AudioFormat D : Type) : Type := {
    isInitialized : D -> bool;
    hasAudio : D -> bool;
    getAudioFormat : D -> AudioFormat * D;
    (** [bool decodeAudioFrame(AudioFrame&)]: [Some] is [true] with the frame. *)
    decodeAudioFrame : D -> option AudioFrame * D;
    (** [bool decodeVideoFrame(VideoFrame&)]: the frame is an in-out argument. *)
    decodeVideoFrame : VideoFrame -> D -> bool * VideoFrame * D;
    getVideoClock : D -> float;
    getFramesPerSecond : D -> float;
    getFrameWidth : D -> Z;
    getFrameHeight : D -> Z;
    getDuration : D -> float;
    start : D -> D;
    stop : D -> D;
    pause : D -> D;
    resume : D -> D;
    seekToTime : float -> D -> D;
    loop : bool -> D -> D
  }.
End MovieDecoder.

Module AudioRenderer.
Class ops (AudioFrame AudioFormat A : Type) : Type := {
    (** [AudioRendererFactory::create( OPENAL_OUTPUT )] *)
    create : A;
    setFormat : AudioFormat -> A -> A;
    hasBufferSpace : A -> bool;
    queueFrame : AudioFrame -> A -> A;
    flushBuffers : A -> A;
    getCurrentPts : A -> float;
    clearBuffers : A -> A;
    play : A -> A;
    pause : A -> A;
    stop : A -> A
  }.
End AudioRenderer.

Module Timer.
Class ops (T : Type) : Type := {
    (** [start( double offsetSeconds = 0 )] *)
    start : float -> T -> T;
    stop : T -> T;
    getSeconds : T -> float
  }.
End Timer.

(** ** OpenGL objects *)

(** A [gl::Texture2dRef]: the name is the object's identity. *)
Record Texture2d : Type := mkTexture2d {
  texName : N;
  texWidth : Z;
  texHeight : Z
}.

(** A [gl::FboRef] with its colour attachment. *)
Record Fbo : Type := mkFbo {
  fboName : N;
  fboWidth : Z;
  fboHeight : Z;
  getColorTexture : Texture2d
}.

(** A linked [gl::GlslProg]: its two sources. *)
Record GlslProg : Type := mkGlslProg {
  vertexSource : string;
  fragmentSource : string
}.

(** The uniforms [update] sets before the draw. *)
Record Uniforms : Type := mkUniforms {
  texUnit1 : Z;
  texUnit2 : Z;
  texUnit3 : Z;
  brightness : Q;
  gamma : Q * Q * Q;
  contrast : Q
}.

(** What a texture holds: nothing defined yet, bytes uploaded by
    [glTexSubImage2D], or the result of the compositor's draw (the program,
    its uniforms, the images bound to units 0, 1, 2 and the two widths of the
    texture-coordinate rectangle).  The context below keeps an entry for
    every object ever created: the destruction of an object whose last
    reference is dropped is not represented, and nothing is stated of the
    image of an object the movie no longer holds. *)
Inductive Image : Type :=
| Undefined
| Uploaded (bytes : list Z)
| Rendered (prog : GlslProg) (u : Uniforms) (y cb cr : Image)
           (visibleWidth lumaWidth : Z).

Record GlContext : Type := mkGlContext {
  nextName : N;
  images : gmap N Image
}.

Definition imageOf (g : GlContext) (t : Texture2d) : Image :=
  default Undefined (images g !! texName t).

(** [gl::Texture2d::create( w, h, fmt )] *)
Definition Texture2d_create (w h : Z) (g : GlContext) : Texture2d * GlContext :=
  (mkTexture2d (nextName g) w h,
   mkGlContext (N.succ (nextName g)) (<[nextName g := Undefined]> (images g))).

(** [gl::Fbo::create( w, h, fmt )]: the target and its colour texture. *)
Definition Fbo_create (w h : Z) (g : GlContext) : Fbo * GlContext :=
  let '(tex, g1) := Texture2d_create w h g in
  (mkFbo (nextName g1) w h tex, mkGlContext (N.succ (nextName g1)) (images g1)).

(** [glTexSubImage2D( target, 0, 0, 0, w, h, fmt, GL_UNSIGNED_BYTE, data )]:
    the first [w * h] bytes at [data] replace the texture's image. *)
Definition texSubImage2D (t : Texture2d) (data : list Z) (g : GlContext) : GlContext :=
  mkGlContext (nextName g)
    (<[texName t := Uploaded (firstn (Z.to_nat (texWidth t * texHeight t)) data)]> (images g)).

(** The draw into the bound target: its colour texture receives the render. *)
Definition drawInto (fbo : Fbo) (img : Image) (g : GlContext) : GlContext :=
  mkGlContext (nextName g) (<[texName (getColorTexture fbo) := img]> (images g)).

(** ** The colour-conversion shader

    The two sources handed to [gl::GlslProg::create] in [initializeShader]. *)

Definition vs : string :=
"#version 150

uniform mat4 ciModelViewProjection;

in vec4 ciPosition;
in vec2 ciTexCoord0;

out vec2 vertTexCoord0;

void main(void)
{
	vertTexCoord0 = ciTexCoord0;
	gl_Position = ciModelViewProjection * ciPosition;
}".

Definition fs : string :=
"#version 150

uniform sampler2D texUnit1, texUnit2, texUnit3;
uniform float brightness;
uniform float contrast;
uniform vec3  gamma;

in vec2 vertTexCoord0;

out vec4 fragColor;

void main(void)
{
	vec3 yuv;
	yuv.x = texture(texUnit1, vertTexCoord0.st).x - 16.0/256.0 + brightness;
	yuv.y = texture(texUnit2, vertTexCoord0.st).x - 128.0/256.0;
	yuv.z = texture(texUnit3, vertTexCoord0.st).x - 128.0/256.0;

	fragColor.r = dot(yuv, vec3(1.164,  0.000,  1.596)) - 0.5;
	fragColor.g = dot(yuv, vec3(1.164, -0.391, -0.813)) - 0.5;
	fragColor.b = dot(yuv, vec3(1.164,  2.018,  0.000)) - 0.5;
	fragColor.a = 1.0;

	fragColor.rgb = fragColor.rgb * contrast + vec3(0.5);
	fragColor.rgb = pow(fragColor.rgb, gamma);
}".

(** The fragment program's [main], over exact rationals: the three samples
    are the [.x] of the three [texture] reads.  GLSL's [pow] is a parameter. *)
Module Fragment.
Section Main.
Variable pow : Q -> Q -> Q.

Local Open Scope Q_scope.

Definition vec3 : Type := (Q * Q * Q)%type.

Definition dot (a b : vec3) : Q :=
    let '(ax, ay, az) := a in
    let '(bx, by_, bz) := b in
    ax * bx + ay * by_ + az * bz.

  (** The three assignments to [yuv]. *)
Definition yuvOf (u : Uniforms) (s1 s2 s3 : Q) : vec3 :=
    (s1 - 16 / 256 + brightness u, s2 - 128 / 256, s3 - 128 / 256).

  (** [fragColor.r], [.g], [.b] after the three [dot] lines. *)
Definition baseColor (yuv : vec3) : vec3 :=
    (dot yuv (1.164, 0.000, 1.596) - 0.5,
     dot yuv (1.164, -0.391, -0.813) - 0.5,
     dot yuv (1.164, 2.018, 0.000) - 0.5).

  (** [fragColor.rgb * contrast + vec3(0.5)], then [pow( rgb, gamma )]. *)
Definition tone (u : Uniforms) (rgb : vec3) : vec3 :=
    let '(r, g, b) := rgb in
    let '(gr, gg, gb) := gamma u in
    (pow (r * contrast u + 0.5) gr,
     pow (g * contrast u + 0.5) gg,
     pow (b * contrast u + 0.5) gb).

  (** [main]: the colour written, [fragColor.a] being [1.0]. *)
Definition main (u : Uniforms) (s1 s2 s3 : Q) : vec3 * Q :=
    (tone u (baseColor (yuvOf u s1 s2 s3)), 1).
End Main.

(** Component-wise equality and distance of colours. *)
Definition veq (a b : vec3) : Prop :=
  let '(ax, ay, az) := a in
  let '(bx, by_, bz) := b in
  (ax == bx /\ ay == by_ /\ az == bz)%Q.

Definition within (eps : Q) (a : vec3) (c : Q) : Prop :=
  let '(ax, ay, az) := a in
  ((c - eps < ax /\ ax < c + eps) /\ (c - eps < ay /\ ay < c + eps)
   /\ (c - eps < az /\ az < c + eps))%Q.

(** The colour the law of the three [dot] lines gives, written out. *)
Definition matrix (y u v : Q) : vec3 :=
  (1.164 * y + 0.000 * u + 1.596 * v - 0.5,
   1.164 * y - 0.391 * u - 0.813 * v - 0.5,
   1.164 * y + 2.018 * u + 0.000 * v - 0.5)%Q.

Definition shift (a : vec3) (c : Q) : vec3 :=
  let '(ax, ay, az) := a in (ax + c, ay + c, az + c)%Q.

Definition nonneg (a : vec3) : Prop :=
  let '(ax, ay, az) := a in (0 <= ax /\ 0 <= ay /\ 0 <= az)%Q.
End Fragment.

(** Modelled from the spec: the sampler of the graphics backend, which turns
    a stored byte into the normalized sample the fragment program reads, is
    not part of the sources; the spec's worked example takes a byte [b] as
    [b/256]. *)
Definition sample8 (b : Z) : Q := b # 256.

(** ** The class MovieGl *)

(** [static_cast<int32_t>( x )] of an integer: reduction into the 32-bit
    two's-complement range. *)
Definition int32_cast (z : Z) : Z := (z + 2 ^ 31) mod 2 ^ 32 - 2 ^ 31.

(** [!p] on a smart pointer. *)
Definition isNull {X : Type} (p : option X) : bool :=
  match p with Some _ => false | None => true end.

(** The values [update] passes to [mShader->uniform] at each draw. *)
Definition drawUniforms : Uniforms :=
  {| texUnit1 := 0; texUnit2 := 1; texUnit3 := 2;
     brightness := 0; gamma := (1, 1, 1)%Q; contrast := 1 |}.

Section MovieGl.

Context {AudioFrame AudioFormat D A T : Type}.
Context {decoderOps : MovieDecoder.ops AudioFrame AudioFormat D}.
Context {rendererOps : AudioRenderer.ops AudioFrame AudioFormat A}.
Context {timerOps : Timer.ops T}.

(** [gl::GlslProg::create( vs, fs )]: the program, or the [what()] of the
    exception it throws. *)
Variable GlslProg_create : string -> string -> GlslProg + string.

(** The members of the object, with the two pieces of ambient state its
    methods write: the OpenGL context and [app::console()]. *)
Record MovieGl : Type := mkMovieGl {
  mWidth : Z;
  mHeight : Z;
  mDuration : float;
  mAudioRenderer : option A;
  mMovieDecoder : D;
  mUpdateTimer : T;
  mYPlane : option Texture2d;
  mUPlane : option Texture2d;
  mVPlane : option Texture2d;
  mFbo : option Fbo;
  mShader : option GlslProg;
  mTexture : option Texture2d;
  glContext : GlContext;
  console : list string
}.

(** Assignments to groups of members. *)
Definition setTransport (a : option A) (d : D) (t : T) (m : MovieGl) : MovieGl :=
  {| mWidth := mWidth m; mHeight := mHeight m; mDuration := mDuration m;
     mAudioRenderer := a; mMovieDecoder := d; mUpdateTimer := t;
     mYPlane := mYPlane m; mUPlane := mUPlane m; mVPlane := mVPlane m;
     mFbo := mFbo m; mShader := mShader m; mTexture := mTexture m;
     glContext := glContext m; console := console m |}.

Definition setSnapshot (w h : Z) (dur : float) (m : MovieGl) : MovieGl :=
  {| mWidth := w; mHeight := h; mDuration := dur;
     mAudioRenderer := mAudioRenderer m; mMovieDecoder := mMovieDecoder m;
     mUpdateTimer := mUpdateTimer m;
     mYPlane := mYPlane m; mUPlane := mUPlane m; mVPlane := mVPlane m;
     mFbo := mFbo m; mShader := mShader m; mTexture := mTexture m;
     glContext := glContext m; console := console m |}.

Definition setPlanes (y u v : option Texture2d) (fbo : option Fbo) (g : GlContext)
    (m : MovieGl) : MovieGl :=
  {| mWidth := mWidth m; mHeight := mHeight m; mDuration := mDuration m;
     mAudioRenderer := mAudioRenderer m; mMovieDecoder := mMovieDecoder m;
     mUpdateTimer := mUpdateTimer m;
     mYPlane := y; mUPlane := u; mVPlane := v;
     mFbo := fbo; mShader := mShader m; mTexture := mTexture m;
     glContext := g; console := console m |}.

Definition setGlContext (g : GlContext) (m : MovieGl) : MovieGl :=
  setPlanes (mYPlane m) (mUPlane m) (mVPlane m) (mFbo m) g m.

Definition setShader (p : option GlslProg) (out : list string) (m : MovieGl) : MovieGl :=
  {| mWidth := mWidth m; mHeight := mHeight m; mDuration := mDuration m;
     mAudioRenderer := mAudioRenderer m; mMovieDecoder := mMovieDecoder m;
     mUpdateTimer := mUpdateTimer m;
     mYPlane := mYPlane m; mUPlane := mUPlane m; mVPlane := mVPlane m;
     mFbo := mFbo m; mShader := p; mTexture := mTexture m;
     glContext := glContext m; console := out |}.

Definition setTexture (t : option Texture2d) (m : MovieGl) : MovieGl :=
  {| mWidth := mWidth m; mHeight := mHeight m; mDuration := mDuration m;
     mAudioRenderer := mAudioRenderer m; mMovieDecoder := mMovieDecoder m;
     mUpdateTimer := mUpdateTimer m;
     mYPlane := mYPlane m; mUPlane := mUPlane m; mVPlane := mVPlane m;
     mFbo := mFbo m; mShader := mShader m; mTexture := t;
     glContext := glContext m; console := console m |}.

(** *** initializeShader *)

Definition initializeShader (m : MovieGl) : MovieGl :=
  match GlslProg_create vs fs with
  | inl prog => setShader (Some prog) (console m) m
  | inr what => setShader (mShader m) (console m ++ [what]) m
  end.

(** *** The constructor

    [d0] is the decoder [std::make_unique<MovieDecoder>( path )] yields, [t0]
    the default-constructed timer, [g] the current context.  [None] is the
    [std::logic_error] thrown. *)
Definition MovieGl_new (d0 : D) (t0 : T) (g : GlContext) (out : list string)
    (playAudio : bool) : option MovieGl :=
  if negb (MovieDecoder.isInitialized d0) then None
  else
    let '(a, d1) :=
      if MovieDecoder.hasAudio d0 then
        let '(audioFormat, d1) := MovieDecoder.getAudioFormat d0 in
        (if playAudio
         then Some (AudioRenderer.setFormat audioFormat AudioRenderer.create)
         else None, d1)
      else (None, d0) in
    Some (initializeShader
      {| mWidth := 0; mHeight := 0; mDuration := 0%float;
         mAudioRenderer := a; mMovieDecoder := d1; mUpdateTimer := t0;
         mYPlane := None; mUPlane := None; mVPlane := None;
         mFbo := None; mShader := None; mTexture := None;
         glContext := g; console := out |}).

(** *** update: decode audio (lines 47-69) *)

(** [while( mAudioRenderer->hasBufferSpace() ) ...] *)
Fixpoint queueLoop (fuel : nat) (a : A) (d : D) : option (A * D) :=
  match fuel with
  | O => None
  | S fuel' =>
      if AudioRenderer.hasBufferSpace a then
        match MovieDecoder.decodeAudioFrame d with
        | (Some audioFrame, d') => queueLoop fuel' (AudioRenderer.queueFrame audioFrame a) d'
        | (None, d') => Some (a, d')
        end
      else Some (a, d)
  end.

(** [while( mMovieDecoder->decodeAudioFrame( audioFrame ) ) { }] *)
Fixpoint discardLoop (fuel : nat) (d : D) : option D :=
  match fuel with
  | O => None
  | S fuel' =>
      match MovieDecoder.decodeAudioFrame d with
      | (Some _, d') => discardLoop fuel' d'
      | (None, d') => Some d'
      end
  end.

(** The audio half of the tick: the renderer, the decoder and [currentPts]. *)
Definition decodeAudio (fuel : nat) (m : MovieGl) : option (option A * D * float) :=
  match mAudioRenderer m with
  | Some a =>
      match queueLoop fuel a (mMovieDecoder m) with
      | Some (a1, d1) =>
          let a2 := AudioRenderer.flushBuffers a1 in
          Some (Some a2, d1, AudioRenderer.getCurrentPts a2)
      | None => None
      end
  | None =>
      if MovieDecoder.hasAudio (mMovieDecoder m) then
        match discardLoop fuel (mMovieDecoder m) with
        | Some d1 => Some (None, d1, Timer.getSeconds (mUpdateTimer m))
        | None => None
        end
      else Some (None, mMovieDecoder m, Timer.getSeconds (mUpdateTimer m))
  end.

(** *** update: decode video (lines 71-92) *)

(** The locals of the drain loop, with the two collaborators it touches. *)
Record DrainState : Type := mkDrainState {
  hasVideo : bool;
  count : Z;
  videoFrame : VideoFrame;
  currentVideoClock : float;
  decoder : D;
  timer : T
}.

(** The loop condition
    [getVideoClock() < currentPts + ( hasVideo ? 0. : frameDuration * 0.5 ) && count++ < 100]:
    its value and the state it leaves ([count] is incremented only when the
    left operand holds). *)
Definition drainCond (currentPts frameDuration : float) (s : DrainState)
    : bool * DrainState :=
  if (MovieDecoder.getVideoClock (decoder s)
        <? currentPts + (if hasVideo s then 0 else frameDuration * 0.5))%float
  then (count s <? 100,
        mkDrainState (hasVideo s) (count s + 1) (videoFrame s)
                     (currentVideoClock s) (decoder s) (timer s))
  else (false, s).

(** The loop body: the state it leaves, and whether it left by [break].
    (The [CI_LOG_V] of a skipped frame only writes to the log.) *)
Definition drainBody (s : DrainState) : DrainState * bool :=
  let '(ok, vf, d) := MovieDecoder.decodeVideoFrame (videoFrame s) (decoder s) in
  if ok then
    (* currentVideoClock > mMovieDecoder->getVideoClock() *)
    if (MovieDecoder.getVideoClock d <? currentVideoClock s)%float
    then (mkDrainState true (count s) vf (currentVideoClock s) d
            (Timer.start (MovieDecoder.getVideoClock d) (timer s)), true)
    else (mkDrainState true (count s) vf (MovieDecoder.getVideoClock d) d (timer s),
          false)
  else (mkDrainState (hasVideo s) (count s) vf (currentVideoClock s) d (timer s), true).

Fixpoint drainLoop (fuel : nat) (currentPts frameDuration : float) (s : DrainState)
    : option DrainState :=
  match fuel with
  | O => None
  | S fuel' =>
      let '(c, s1) := drainCond currentPts frameDuration s in
      if c then
        let '(s2, brk) := drainBody s1 in
        if brk then Some s2 else drainLoop fuel' currentPts frameDuration s2
      else Some s1
  end.

(** The locals as declared before the loop. *)
Definition drainInit (d : D) (t : T) : DrainState :=
  mkDrainState false 0 VideoFrame_new (MovieDecoder.getVideoClock d) d t.

(** The video half of the tick.  The condition is evaluated at most 101
    times (see [drainLoop_total]), so the fuel is never exhausted. *)
Definition decodeVideo (d : D) (t : T) (currentPts : float) : option DrainState :=
  drainLoop 101 currentPts (1 / MovieDecoder.getFramesPerSecond d)%float (drainInit d t).

(** Both halves: the renderer and the loop's final state. *)
Definition pump (fuel : nat) (m : MovieGl) : option (option A * DrainState) :=
  match decodeAudio fuel m with
  | Some (a, d1, currentPts) =>
      match decodeVideo d1 (mUpdateTimer m) currentPts with
      | Some s => Some (a, s)
      | None => None
      end
  | None => None
  end.

(** *** update: textures and render (lines 94-162) *)

Definition needsResize (vf : VideoFrame) (m : MovieGl) : bool :=
  isNull (mYPlane m) || isNull (mUPlane m) || isNull (mVPlane m) || isNull (mFbo m)
  || negb (getHeight vf =? mHeight m) || negb (getWidth vf =? mWidth m).

(** The body of the resize [if]; [mHeight / 2] is C++ integer division. *)
Definition resize (vf : VideoFrame) (m : MovieGl) : MovieGl :=
  let m1 := setSnapshot (getWidth vf) (getHeight vf) (mDuration m) m in
  let '(y, g1) := Texture2d_create (getYLineSize vf) (mHeight m1) (glContext m1) in
  let '(u, g2) := Texture2d_create (getULineSize vf) (mHeight m1 ÷ 2) g1 in
  let '(v, g3) := Texture2d_create (getVLineSize vf) (mHeight m1 ÷ 2) g2 in
  let '(fbo, g4) := Fbo_create (mWidth m1) (mHeight m1) g3 in
  setPlanes (Some y) (Some u) (Some v) (Some fbo) g4 m1.

(** [if( plane ) { ... glTexSubImage2D( ... ) }] *)
Definition uploadPlane (plane : option Texture2d) (data : list Z) (g : GlContext)
    : GlContext :=
  match plane with
  | Some t => texSubImage2D t data g
  | None => g
  end.

Definition upload (vf : VideoFrame) (m : MovieGl) : MovieGl :=
  let g1 := uploadPlane (mYPlane m) (getYPlane vf) (glContext m) in
  let g2 := uploadPlane (mUPlane m) (getUPlane vf) g1 in
  let g3 := uploadPlane (mVPlane m) (getVPlane vf) g2 in
  setGlContext g3 m.

(** The render block and the assignment to [mTexture].  [mFbo], [mShader]
    and the three planes are dereferenced without a test; [getWidth()] is
    the accessor of [mWidth]. *)
Definition render (m : MovieGl) : Outcome MovieGl :=
  match mFbo m, mShader m, mYPlane m, mUPlane m, mVPlane m with
  | Some fbo, Some prog, Some y, Some u, Some v =>
      let g := glContext m in
      let img := Rendered prog drawUniforms (imageOf g y) (imageOf g u) (imageOf g v)
                          (mWidth m) (texWidth y) in
      Done (setTexture (Some (getColorTexture fbo)) (setGlContext (drawInto fbo img g) m))
  | _, _, _, _, _ => NullDeref
  end.

(** The body of [if( hasVideo )]. *)
Definition present (vf : VideoFrame) (m : MovieGl) : Outcome MovieGl :=
  let m1 := if needsResize vf m then resize vf m else m in
  render (upload vf m1).

(** *** update *)

Definition update (fuel : nat) (m : MovieGl) : Outcome MovieGl :=
  if negb (MovieDecoder.isInitialized (mMovieDecoder m)) then Done m
  else
    match pump fuel m with
    | Some (a, s) =>
        let m1 := setTransport a (decoder s) (timer s) m in
        if hasVideo s then present (videoFrame s) m1 else Done m1
    | None => OutOfFuel
    end.

(** *** The other methods *)

Definition getTexture (m : MovieGl) : option Texture2d := mTexture m.

Definition checkNewFrame (m : MovieGl) : bool :=
  match mAudioRenderer m with
  | None => false
  | Some a =>
      if negb (MovieDecoder.isInitialized (mMovieDecoder m)) then false
      else (MovieDecoder.getVideoClock (mMovieDecoder m)
              <? AudioRenderer.getCurrentPts a)%float
  end.

Definition play (m : MovieGl) : MovieGl :=
  if negb (MovieDecoder.isInitialized (mMovieDecoder m)) then m
  else
    let d := MovieDecoder.start (mMovieDecoder m) in
    setSnapshot (int32_cast (MovieDecoder.getFrameWidth d))
                (int32_cast (MovieDecoder.getFrameHeight d))
                (MovieDecoder.getDuration d)
      (setTransport (mAudioRenderer m) d (Timer.start 0%float (mUpdateTimer m)) m).

Definition stop (m : MovieGl) : MovieGl :=
  if negb (MovieDecoder.isInitialized (mMovieDecoder m)) then m
  else
    setTransport (option_map AudioRenderer.stop (mAudioRenderer m))
                 (MovieDecoder.stop (mMovieDecoder m))
                 (Timer.stop (mUpdateTimer m)) m.

Definition pause (m : MovieGl) : MovieGl :=
  if negb (MovieDecoder.isInitialized (mMovieDecoder m)) then m
  else
    setTransport (option_map AudioRenderer.pause (mAudioRenderer m))
                 (MovieDecoder.pause (mMovieDecoder m))
                 (Timer.stop (mUpdateTimer m)) m.

Definition resume (m : MovieGl) : MovieGl :=
  if negb (MovieDecoder.isInitialized (mMovieDecoder m)) then m
  else
    let d := MovieDecoder.resume (mMovieDecoder m) in
    setTransport (option_map AudioRenderer.play (mAudioRenderer m)) d
                 (Timer.start (MovieDecoder.getVideoClock d) (mUpdateTimer m)) m.

Definition seekToTime (seconds : float) (m : MovieGl) : MovieGl :=
  if negb (MovieDecoder.isInitialized (mMovieDecoder m)) then m
  else
    let a1 := option_map AudioRenderer.clearBuffers (mAudioRenderer m) in
    let d := MovieDecoder.seekToTime seconds (mMovieDecoder m) in
    let t := Timer.start seconds (mUpdateTimer m) in
    let a2 := option_map AudioRenderer.play a1 in
    setTexture None (setTransport a2 d t m).

Definition setLoop (loop : bool) (m : MovieGl) : MovieGl :=
  if negb (MovieDecoder.isInitialized (mMovieDecoder m)) then m
  else setTransport (mAudioRenderer m) (MovieDecoder.loop loop (mMovieDecoder m))
                    (mUpdateTimer m) m.

End MovieGl.

(** *** Calls on a movie

    The public operations as data, to speak of sequences of calls. *)

Inductive Call : Type :=
| CallUpdate (fuel : nat)
| CallPlay
| CallStop
| CallPause
| CallResume
| CallSeekToTime (seconds : float)
| CallSetLoop (loop : bool).

Section Calls.

Context {AudioFrame AudioFormat D A T : Type}.
Context {decoderOps : MovieDecoder.ops AudioFrame AudioFormat D}.
Context {rendererOps : AudioRenderer.ops AudioFrame AudioFormat A}.
Context {timerOps : Timer.ops T}.

Definition call (c : Call) (m : MovieGl) : Outcome (@MovieGl D A T) :=
  match c with
  | CallUpdate fuel => update fuel m
  | CallPlay => Done (play m)
  | CallStop => Done (stop m)
  | CallPause => Done (pause m)
  | CallResume => Done (resume m)
  | CallSeekToTime seconds => Done (seekToTime seconds m)
  | CallSetLoop loop => Done (setLoop loop m)
  end.

(** The tick [update] accepts a video frame: [hasVideo] holds after the loop. *)
Definition accepts (fuel : nat) (m : MovieGl) : bool :=
  MovieDecoder.isInitialized (mMovieDecoder m)
  && match pump fuel m with
     | Some (_, s) => hasVideo s
     | None => false
     end.

(** A completed call that is not a tick accepting a video frame. *)
Definition quietStep (m m' : @MovieGl D A T) : Prop :=
  exists c, call c m = Done m'
            /\ match c with CallUpdate fuel => accepts fuel m = false | _ => True end.

(** The state the loop condition leaves when its left operand holds. *)
Definition counted (s : @DrainState D T) : DrainState :=
  mkDrainState (hasVideo s) (count s + 1) (videoFrame s) (currentVideoClock s)
               (decoder s) (timer s).

(** [k] successive calls of [decodeVideoFrame], whatever they return. *)
Fixpoint pullVideo (k : nat) (vf : VideoFrame) (d : D) : VideoFrame * D :=
  match k with
  | O => (vf, d)
  | S k' =>
      let '(_, vf', d') := MovieDecoder.decodeVideoFrame vf d in
      pullVideo k' vf' d'
  end.

(** [k] successive calls of [decodeAudioFrame] that all return a frame. *)
Fixpoint pullAudio (k : nat) (d : D) : option D :=
  match k with
  | O => Some d
  | S k' =>
      match MovieDecoder.decodeAudioFrame d with
      | (Some _, d') => pullAudio k' d'
      | (None, _) => None
      end
  end.

End Calls.

(** The bytes [glTexSubImage2D] takes from a plane for a texture. *)
Definition planeBytes (tex : Texture2d) (data : list Z) : Image :=
  Uploaded (firstn (Z.to_nat (texWidth tex * texHeight tex)) data).

(** ** Histories of a movie *)

Section Histories.

Context {AudioFrame AudioFormat D A T : Type}.
Context {decoderOps : MovieDecoder.ops AudioFrame AudioFormat D}.
Context {rendererOps : AudioRenderer.ops AudioFrame AudioFormat A}.
Context {timerOps : Timer.ops T}.

(** One completed public call. *)
Definition step (m m' : @MovieGl D A T) : Prop :=
  exists c, call c m = Done m'.

(** The movies a program can hold: constructed, then driven by calls that
    complete. *)
Definition reachable (m : @MovieGl D A T) : Prop :=
  exists (create : string -> string -> GlslProg + string)
         (d0 : D) (t0 : T) (g : GlContext) (out : list string)
         (playAudio : bool) (m0 : MovieGl),
    MovieGl_new create d0 t0 g out playAudio = Some m0 /\ rtc step m0 m.

(** The shape of the texture cache: the four objects are all null or all
    there; when there, they are four distinct textures allocated by the
    context, the chroma planes are half the luma height, and the target is
    as large as its colour texture.  The output texture, when set, is the
    colour texture of the current target. *)
Definition cacheInv (m : @MovieGl D A T) : Prop :=
  (mTexture m = None \/ mTexture m = option_map getColorTexture (mFbo m))
  /\ ((mYPlane m = None /\ mUPlane m = None /\ mVPlane m = None /\ mFbo m = None)
      \/ exists (y u v : Texture2d) (fbo : Fbo),
           mYPlane m = Some y /\ mUPlane m = Some u /\ mVPlane m = Some v
           /\ mFbo m = Some fbo
           /\ (texName y < texName u < texName v)%N
           /\ (texName v < texName (getColorTexture fbo) < nextName (glContext m))%N
           /\ texHeight u = texHeight y ÷ 2 /\ texHeight v = texHeight y ÷ 2
           /\ texWidth (getColorTexture fbo) = fboWidth fbo
           /\ texHeight (getColorTexture fbo) = fboHeight fbo
           /\ fboHeight fbo = texHeight y).

(** The frames [decodeAudioFrame] hands out, in order, going from [d] to [d1]. *)
Fixpoint feeds (frames : list AudioFrame) (d d1 : D) : Prop :=
  match frames with
  | [] => d1 = d
  | f :: rest =>
      exists d', MovieDecoder.decodeAudioFrame d = (Some f, d') /\ feeds rest d' d1
  end.

(** [queueFrame] applied to the frames in order. *)
Definition queueAll (frames : list AudioFrame) (a : A) : A :=
  fold_left (fun acc f => AudioRenderer.queueFrame f acc) frames a.

(** Two loop states that differ at most in the timer. *)
Definition sameButTimer (s s' : @DrainState D T) : Prop :=
  hasVideo s = hasVideo s' /\ count s = count s'
  /\ videoFrame s = videoFrame s' /\ currentVideoClock s = currentVideoClock s'
  /\ decoder s = decoder s'.

End Histories.

(** ** Test doubles

    Concrete collaborators on which the statements below are instantiated. *)

Module Fixture.

(** A decoder that plays a script: queued video frames with their
    timestamps, and queued audio frames. *)
Record Script : Type := mkScript {
  initialized : bool;
  audio : bool;
  clock : float;
  fps : float;
  videoQueue : list (float * VideoFrame);
  audioQueue : list nat
}.

#[global] Instance scriptOps : MovieDecoder.ops nat unit Script := {|
  MovieDecoder.isInitialized := initialized;
  MovieDecoder.hasAudio := audio;
  MovieDecoder.getAudioFormat := fun d => (tt, d);
  MovieDecoder.decodeAudioFrame := fun d =>
    match audioQueue d with
    | a :: q => (Some a, mkScript (initialized d) (audio d) (clock d) (fps d) (videoQueue d) q)
    | [] => (None, d)
    end;
  MovieDecoder.decodeVideoFrame := fun vf d =>
    match videoQueue d with
    | (pts, f) :: q => (true, f, mkScript (initialized d) (audio d) pts (fps d) q (audioQueue d))
    | [] => (false, vf, d)
    end;
  MovieDecoder.getVideoClock := clock;
  MovieDecoder.getFramesPerSecond := fps;
  MovieDecoder.getFrameWidth := fun _ => 640;
  MovieDecoder.getFrameHeight := fun _ => 480;
  MovieDecoder.getDuration := fun _ => 10%float;
  MovieDecoder.start := fun d => d;
  MovieDecoder.stop := fun d => d;
  MovieDecoder.pause := fun d => d;
  MovieDecoder.resume := fun d => d;
  MovieDecoder.seekToTime := fun t d =>
    mkScript (initialized d) (audio d) t (fps d) (videoQueue d) (audioQueue d);
  MovieDecoder.loop := fun _ d => d
|}.

(** A renderer with a number of free buffers and a consumed position. *)
Record Speaker : Type := mkSpeaker {
  space : nat;
  queued : list nat;
  position : float
}.

#[global] Instance speakerOps : AudioRenderer.ops nat unit Speaker := {|
  AudioRenderer.create := mkSpeaker 4 [] 0%float;
  AudioRenderer.setFormat := fun _ a => a;
  AudioRenderer.hasBufferSpace := fun a => negb (Nat.eqb (space a) 0);
  AudioRenderer.queueFrame := fun f a => mkSpeaker (Nat.pred (space a)) (queued a ++ [f]) (position a);
  AudioRenderer.flushBuffers := fun a => a;
  AudioRenderer.getCurrentPts := position;
  AudioRenderer.clearBuffers := fun a => mkSpeaker (space a + length (queued a)) [] (position a);
  AudioRenderer.play := fun a => a;
  AudioRenderer.pause := fun a => a;
  AudioRenderer.stop := fun a => a
|}.

(** A timer read as the seconds it was last started at. *)
#[global] Instance stopwatchOps : Timer.ops float := {|
  Timer.start := fun offsetSeconds _ => offsetSeconds;
  Timer.stop := fun t => t;
  Timer.getSeconds := fun t => t
|}.

(** A decoder that never runs out of video frames and whose clock stays at
    zero: its state counts the frames pulled. *)
#[global] Instance endlessOps : MovieDecoder.ops nat unit nat := {|
  MovieDecoder.isInitialized := fun _ => true;
  MovieDecoder.hasAudio := fun _ => false;
  MovieDecoder.getAudioFormat := fun d => (tt, d);
  MovieDecoder.decodeAudioFrame := fun d => (None, d);
  MovieDecoder.decodeVideoFrame := fun vf d => (true, vf, S d);
  MovieDecoder.getVideoClock := fun _ => 0%float;
  MovieDecoder.getFramesPerSecond := fun _ => 30%float;
  MovieDecoder.getFrameWidth := fun _ => 640;
  MovieDecoder.getFrameHeight := fun _ => 480;
  MovieDecoder.getDuration := fun _ => 10%float;
  MovieDecoder.start := fun d => d;
  MovieDecoder.stop := fun d => d;
  MovieDecoder.pause := fun d => d;
  MovieDecoder.resume := fun d => d;
  MovieDecoder.seekToTime := fun _ d => d;
  MovieDecoder.loop := fun _ d => d
|}.

(** The two behaviours of [gl::GlslProg::create]. *)
Definition compiles (v f : string) : GlslProg + string := inl (mkGlslProg v f).
Definition failsToCompile (v f : string) : GlslProg + string :=
  inr "GlslProgCompileExc"%string.

Definition emptyContext : GlContext := mkGlContext 0 ∅.

(** A 640x480 frame with padded strides, its planes cut to the first
    samples, each the given byte. *)
Definition frame (y u v : Z) : VideoFrame :=
  mkVideoFrame 640 480 644 322 322 [y; y; y; y] [u] [v].

(** A small frame for the timing examples. *)
Definition tiny (tag : Z) : VideoFrame := mkVideoFrame 2 2 4 2 2 (repeat tag 8) [tag; tag] [tag; tag].

(** A GLSL [pow] on rationals for whole exponents. *)
Definition qpow (x y : Q) : Q := Qpower x (Qfloor y).

(** A script decoder at a given clock, at 30 frames per second. *)
Definition script (now : float) (video : list (float * VideoFrame)) (sound : list nat)
    : Script :=
  mkScript true true now 30 video sound.

(** A movie as the constructor leaves it, around the given collaborators. *)
Definition movie (d : Script) (a : option Speaker) (t : float)
    (shader : option GlslProg) : @MovieGl Script Speaker float :=
  {| mWidth := 0; mHeight := 0; mDuration := 0%float;
     mAudioRenderer := a; mMovieDecoder := d; mUpdateTimer := t;
     mYPlane := None; mUPlane := None; mVPlane := None;
     mFbo := None; mShader := shader; mTexture := None;
     glContext := emptyContext; console := [] |}.

Definition program : GlslProg := mkGlslProg vs fs.

(** The movie a completed call leaves ([m] itself otherwise). *)
Definition after (c : Call) (m : @MovieGl Script Speaker float)
    : @MovieGl Script Speaker float :=
  match call c m with
  | Done m' => m'
  | _ => m
  end.

(** The width and height of a plane texture. *)
Definition sizeOf (t : option Texture2d) : option (Z * Z) :=
  option_map (fun x => (texWidth x, texHeight x)) t.

End Fixture.

(** * Properties *)

(** ** Floating-point facts *)

(** Adding the literal [0.] to the right operand does not change a [<]:
    only the sign of a zero can differ, and [<] does not see it. *)
Lemma ltb_add_zero (x y : float) : (x <? y + 0)%float = (x <? y)%float.
Proof.
  rewrite !ltb_spec, add_spec.
  change (Prim2SF 0) with (S754_zero false).
  destruct (Prim2SF y) as [sy | sy | | sy my ey];
    destruct (Prim2SF x) as [sx | sx | | sx mx ex];
    try reflexivity; destruct sy; reflexivity.
Qed.

Section Properties.

Context {AudioFrame AudioFormat D A T : Type}.
Context {decoderOps : MovieDecoder.ops AudioFrame AudioFormat D}.
Context {rendererOps : AudioRenderer.ops AudioFrame AudioFormat A}.
Context {timerOps : Timer.ops T}.

Implicit Types (m : @MovieGl D A T) (s : @DrainState D T) (d : D) (t : T).

(** ** The drain loop *)

Lemma drainCond_eq (currentPts frameDuration : float) s :
  drainCond currentPts frameDuration s =
  if (MovieDecoder.getVideoClock (decoder s)
        <? currentPts + (if hasVideo s then 0 else frameDuration * 0.5))%float
  then (count s <? 100, counted s) else (false, s).
Proof. reflexivity. Qed.

Lemma drainLoop_unfold fuel (currentPts frameDuration : float) s :
  drainLoop (S fuel) currentPts frameDuration s =
  if fst (drainCond currentPts frameDuration s) then
    let '(s2, brk) := drainBody (snd (drainCond currentPts frameDuration s)) in
    if brk then Some s2 else drainLoop fuel currentPts frameDuration s2
  else Some (snd (drainCond currentPts frameDuration s)).
Proof.
  simpl. destruct (drainCond currentPts frameDuration s) as [c s1]. reflexivity.
Qed.

(** One pass through the body makes exactly one call of [decodeVideoFrame]
    and leaves [count] alone. *)
Lemma drainBody_pull s :
  (videoFrame (fst (drainBody s)), decoder (fst (drainBody s)))
    = pullVideo 1 (videoFrame s) (decoder s)
  /\ count (fst (drainBody s)) = count s.
Proof.
  unfold drainBody. simpl.
  destruct (MovieDecoder.decodeVideoFrame (videoFrame s) (decoder s)) as [[ok vf] d'].
  destruct ok; [destruct (_ <? _)%float |]; simpl; split; reflexivity.
Qed.

Lemma pullVideo_S k (vf : VideoFrame) d :
  pullVideo (S k) vf d
  = pullVideo k (fst (pullVideo 1 vf d)) (snd (pullVideo 1 vf d)).
Proof.
  simpl. destruct (MovieDecoder.decodeVideoFrame vf d) as [[ok vf'] d']. reflexivity.
Qed.

(** The loop returns whenever the fuel exceeds what is left of the cap, and
    has then pulled at most that many frames. *)
Lemma drainLoop_total fuel : forall (currentPts frameDuration : float) s,
  (Z.to_nat (100 - count s) < fuel)%nat ->
  exists (k : nat) s',
    drainLoop fuel currentPts frameDuration s = Some s'
    /\ (k <= Z.to_nat (100 - count s))%nat
    /\ (videoFrame s', decoder s') = pullVideo k (videoFrame s) (decoder s).
Proof.
  induction fuel as [| fuel IH]; intros currentPts frameDuration s Hfuel; [lia |].
  rewrite drainLoop_unfold, drainCond_eq.
  destruct (_ <? _)%float; simpl; [| exists 0%nat, s; repeat split; lia].
  destruct (Z.ltb_spec (count s) 100) as [Hlt | Hge];
    [| exists 0%nat, (counted s); repeat split; lia].
  destruct (drainBody_pull (counted s)) as [Hpull Hcount].
  change (videoFrame (counted s)) with (videoFrame s) in Hpull.
  change (decoder (counted s)) with (decoder s) in Hpull.
  change (count (counted s)) with (count s + 1) in Hcount.
  destruct (drainBody (counted s)) as [s2 brk]; cbn [fst] in Hpull, Hcount.
  destruct brk.
  - exists 1%nat, s2. split; [reflexivity |]. split; [lia | exact Hpull].
  - destruct (IH currentPts frameDuration s2) as (k & s' & Hrun & Hk & Hs'); [lia |].
    exists (S k), s'. split; [exact Hrun |]. split; [lia |].
    rewrite Hs', pullVideo_S, <- Hpull. reflexivity.
Qed.

(** *** C1 *)

(** C1. In the drain loop of [update], while the cap is not reached, the
    condition holds exactly when the decoder's video clock is strictly
    below [currentPts + frameDuration * 0.5] if no frame has been accepted
    yet this tick, and strictly below [currentPts] once one has been (the
    bias [0.] changes nothing).  Exactly then the loop calls
    [decodeVideoFrame] and goes on from what it returned (a frame accepted,
    and the loop left on a backward jump, or left on a failed pull);
    otherwise it returns with the decoder and every local untouched.  At
    the start of a tick no frame has been accepted and the frame duration
    is [1. / getFramesPerSecond()]: at 30 frames per second and a clock
    value of 1.0, a decoder at video clock 1.016 is pulled and one at 1.02
    is not. *)
Theorem drain_admission_threshold (currentPts frameDuration : float) s :
  count s < 100 ->
  let admitted := fst (drainCond currentPts frameDuration s) in
  let pull := fun (duration : float) (s0 : DrainState) (fuel : nat) =>
    match MovieDecoder.decodeVideoFrame (videoFrame s0) (decoder s0) with
    | (true, vf, d) =>
        if (MovieDecoder.getVideoClock d <? currentVideoClock s0)%float
        then Some (mkDrainState true (count s0 + 1) vf (currentVideoClock s0) d
                     (Timer.start (MovieDecoder.getVideoClock d) (timer s0)))
        else drainLoop fuel currentPts duration
               (mkDrainState true (count s0 + 1) vf (MovieDecoder.getVideoClock d) d
                  (timer s0))
    | (false, vf, d) =>
        Some (mkDrainState (hasVideo s0) (count s0 + 1) vf (currentVideoClock s0) d
                (timer s0))
    end in
  (hasVideo s = false ->
     admitted = (MovieDecoder.getVideoClock (decoder s)
                   <? currentPts + frameDuration * 0.5)%float)
  /\ (hasVideo s = true ->
     admitted = (MovieDecoder.getVideoClock (decoder s) <? currentPts)%float)
  /\ (forall fuel,
        drainLoop (S fuel) currentPts frameDuration s =
        if admitted then pull frameDuration s fuel else Some s)
  /\ (forall d t,
        let halfFrame := (1 / MovieDecoder.getFramesPerSecond d * 0.5)%float in
        decodeVideo d t currentPts =
        if (MovieDecoder.getVideoClock d <? currentPts + halfFrame)%float
        then pull (1 / MovieDecoder.getFramesPerSecond d)%float (drainInit d t) 100%nat
        else Some (drainInit d t))
  /\ (currentPts = 1.0%float ->
      forall d t,
        MovieDecoder.getFramesPerSecond d = 30%float ->
        (MovieDecoder.getVideoClock d = 1.016%float ->
           fst (drainCond currentPts (1 / MovieDecoder.getFramesPerSecond d)
                  (drainInit d t)) = true
           /\ decodeVideo d t currentPts
              = pull (1 / MovieDecoder.getFramesPerSecond d)%float (drainInit d t) 100%nat)
        /\ (MovieDecoder.getVideoClock d = 1.02%float ->
           decodeVideo d t currentPts = Some (drainInit d t))).
Proof.
  intros Hcap admitted pull. subst admitted.
  assert (Hlt : (count s <? 100) = true) by (apply Z.ltb_lt; exact Hcap).
  assert (Hbody : forall (duration : float) (s0 : DrainState) fuel,
            (let '(s2, brk) := drainBody (counted s0) in
             if brk then Some s2 else drainLoop fuel currentPts duration s2)
            = pull duration s0 fuel).
  { intros duration s0 fuel. unfold pull, drainBody, counted.
    cbn [videoFrame decoder hasVideo currentVideoClock count timer].
    destruct (MovieDecoder.decodeVideoFrame (videoFrame s0) (decoder s0))
      as [[ok vf] d].
    destruct ok; [destruct (_ <? _)%float |]; reflexivity. }
  assert (Htick : forall d t,
            decodeVideo d t currentPts =
            if (MovieDecoder.getVideoClock d
                  <? currentPts + 1 / MovieDecoder.getFramesPerSecond d * 0.5)%float
            then pull (1 / MovieDecoder.getFramesPerSecond d)%float (drainInit d t) 100%nat
            else Some (drainInit d t)).
  { intros d t. unfold decodeVideo.
    rewrite drainLoop_unfold, drainCond_eq. cbn [drainInit hasVideo decoder count].
    destruct (_ <? _)%float; cbn [fst snd Z.ltb Z.compare]; [| reflexivity].
    apply (Hbody _ (drainInit d t)). }
  split; [| split; [| split; [| split]]].
  - intros Hv. rewrite drainCond_eq, Hv, Hlt.
    destruct (_ <? _)%float; reflexivity.
  - intros Hv. rewrite drainCond_eq, Hv, ltb_add_zero, Hlt.
    destruct (_ <? _)%float; reflexivity.
  - intros fuel. rewrite drainLoop_unfold, drainCond_eq, Hlt.
    destruct (_ <? _)%float; cbn [fst snd]; [apply Hbody | reflexivity].
  - exact Htick.
  - intros Hpts d t Hfps. split; intros Hclock.
    + split.
      * rewrite drainCond_eq. simpl. rewrite Hpts, Hfps, Hclock. reflexivity.
      * rewrite Htick. rewrite Hpts at 1. rewrite Hfps at 1. rewrite Hclock at 1.
        reflexivity.
    + rewrite Htick, Hpts, Hfps, Hclock. reflexivity.
Qed.

(** *** C2 *)

Lemma update_presents fuel m (a : option A) s :
  MovieDecoder.isInitialized (mMovieDecoder m) = true ->
  pump fuel m = Some (a, s) ->
  hasVideo s = true ->
  update fuel m = present (videoFrame s) (setTransport a (decoder s) (timer s) m).
Proof.
  intros Hinit Hpump Hv. unfold update. rewrite Hinit, Hpump, Hv. reflexivity.
Qed.


(** *** C3 *)

(** C3. For every decoder, timer and clock value, the video drain of a tick
    returns, having made [k <= 100] calls of [decodeVideoFrame] (one per
    iteration of the loop) and nothing else to the decoder. *)
Theorem video_drain_bounded d t (currentPts : float) :
  exists (k : nat) s',
    decodeVideo d t currentPts = Some s'
    /\ (k <= 100)%nat
    /\ (videoFrame s', decoder s') = pullVideo k VideoFrame_new d.
Proof.
  destruct (drainLoop_total 101 currentPts
              (1 / MovieDecoder.getFramesPerSecond d)%float (drainInit d t))
    as (k & s' & Hrun & Hk & Hs').
  - simpl. lia.
  - exists k, s'. split; [exact Hrun |]. split; [| exact Hs'].
    simpl in Hk. lia.
Qed.

(** ** The plane texture cache *)

Lemma needsResize_spec (vf : VideoFrame) m :
  needsResize vf m = true <->
  mYPlane m = None \/ mUPlane m = None \/ mVPlane m = None \/ mFbo m = None
  \/ getHeight vf <> mHeight m \/ getWidth vf <> mWidth m.
Proof.
  unfold needsResize.
  rewrite !orb_true_iff, !negb_true_iff, !Z.eqb_neq.
  destruct (mYPlane m), (mUPlane m), (mVPlane m), (mFbo m); simpl;
    intuition congruence.
Qed.

Lemma needsResize_false (vf : VideoFrame) m :
  needsResize vf m = false ->
  exists y u v fbo,
    mYPlane m = Some y /\ mUPlane m = Some u /\ mVPlane m = Some v
    /\ mFbo m = Some fbo /\ getHeight vf = mHeight m /\ getWidth vf = mWidth m.
Proof.
  unfold needsResize.
  rewrite !orb_false_iff, !negb_false_iff, !Z.eqb_eq.
  destruct (mYPlane m) as [y |], (mUPlane m) as [u |], (mVPlane m) as [v |],
    (mFbo m) as [fbo |]; simpl; intros H; try (intuition discriminate).
  exists y, u, v, fbo. intuition.
Qed.

(** The upload touches neither the members nor the allocator. *)
Lemma upload_members (vf : VideoFrame) m :
  mYPlane (upload vf m) = mYPlane m /\ mUPlane (upload vf m) = mUPlane m
  /\ mVPlane (upload vf m) = mVPlane m /\ mFbo (upload vf m) = mFbo m
  /\ mShader (upload vf m) = mShader m
  /\ mWidth (upload vf m) = mWidth m /\ mHeight (upload vf m) = mHeight m
  /\ nextName (glContext (upload vf m)) = nextName (glContext m).
Proof.
  repeat split; try reflexivity.
  unfold upload, uploadPlane, setGlContext, setPlanes, texSubImage2D.
  destruct (mYPlane m), (mUPlane m), (mVPlane m); reflexivity.
Qed.

(** With a program and the four objects, the render completes: it changes
    the output texture and the image of the target's colour texture only. *)
Lemma render_done m (prog : GlslProg) (fbo : Fbo) (y u v : Texture2d) :
  mShader m = Some prog -> mFbo m = Some fbo ->
  mYPlane m = Some y -> mUPlane m = Some u -> mVPlane m = Some v ->
  render m =
  Done (setTexture (Some (getColorTexture fbo))
          (setGlContext
             (drawInto fbo
                (Rendered prog drawUniforms (imageOf (glContext m) y)
                   (imageOf (glContext m) u) (imageOf (glContext m) v)
                   (mWidth m) (texWidth y))
                (glContext m)) m)).
Proof.
  intros Hs Hf Hy Hu Hv. unfold render. rewrite Hs, Hf, Hy, Hu, Hv. reflexivity.
Qed.

(** What [present] leaves, given a program: the cache it drew from (resized
    or not) and the render in the output texture. *)
Lemma present_done (vf : VideoFrame) m (prog : GlslProg) :
  mShader m = Some prog ->
  let m1 := if needsResize vf m then resize vf m else m in
  exists m' (fbo : Fbo) (y u v : Texture2d),
    present vf m = Done m'
    /\ mYPlane m1 = Some y /\ mUPlane m1 = Some u /\ mVPlane m1 = Some v
    /\ mFbo m1 = Some fbo
    /\ mYPlane m' = Some y /\ mUPlane m' = Some u /\ mVPlane m' = Some v
    /\ mFbo m' = Some fbo
    /\ mWidth m' = getWidth vf /\ mHeight m' = getHeight vf
    /\ nextName (glContext m') = nextName (glContext m1)
    /\ mShader m' = Some prog
    /\ mAudioRenderer m' = mAudioRenderer m
    /\ mMovieDecoder m' = mMovieDecoder m
    /\ mUpdateTimer m' = mUpdateTimer m
    /\ getTexture m' = Some (getColorTexture fbo)
    /\ imageOf (glContext m') (getColorTexture fbo)
       = Rendered prog drawUniforms
           (imageOf (glContext (upload vf m1)) y)
           (imageOf (glContext (upload vf m1)) u)
           (imageOf (glContext (upload vf m1)) v)
           (getWidth vf) (texWidth y).
Proof.
  intros Hshader m1.
  assert (Hm1 : exists y u v fbo,
            mYPlane m1 = Some y /\ mUPlane m1 = Some u /\ mVPlane m1 = Some v
            /\ mFbo m1 = Some fbo /\ mWidth m1 = getWidth vf
            /\ mHeight m1 = getHeight vf /\ mShader m1 = Some prog
            /\ mAudioRenderer m1 = mAudioRenderer m
            /\ mMovieDecoder m1 = mMovieDecoder m
            /\ mUpdateTimer m1 = mUpdateTimer m).
  { subst m1. destruct (needsResize vf m) eqn:Hneed.
    - unfold resize, Fbo_create, Texture2d_create. simpl.
      do 4 eexists. repeat split; try reflexivity. exact Hshader.
    - destruct (needsResize_false vf m Hneed) as (y & u & v & fbo & ? & ? & ? & ? & ? & ?).
      exists y, u, v, fbo. repeat split; try assumption; congruence. }
  destruct Hm1 as (y & u & v & fbo & Hy & Hu & Hv & Hf & Hw & Hh & Hs & Ha & Hd & Ht).
  destruct (upload_members vf m1) as (Uy & Uu & Uv & Uf & Us & Uw & Uh & Un).
  eexists _, fbo, y, u, v. split.
  - unfold present. fold m1.
    apply (render_done (upload vf m1) prog fbo y u v); congruence.
  - cbn [setTexture setGlContext setPlanes mYPlane mUPlane mVPlane mFbo mWidth
         mHeight glContext mShader mAudioRenderer mMovieDecoder mUpdateTimer
         getTexture mTexture drawInto nextName].
    assert (Ua : mAudioRenderer (upload vf m1) = mAudioRenderer m1) by reflexivity.
    assert (Ud : mMovieDecoder (upload vf m1) = mMovieDecoder m1) by reflexivity.
    assert (Ut : mUpdateTimer (upload vf m1) = mUpdateTimer m1) by reflexivity.
    repeat split; try congruence.
    unfold imageOf at 1, drawInto. cbn [images]. rewrite lookup_insert_eq. cbn [default].
    rewrite Uw, Hw. reflexivity.
Qed.

(** What [present] does to the cache. *)
Lemma present_cache (vf : VideoFrame) m (prog : GlslProg) :
  mShader m = Some prog ->
  exists m',
    present vf m = Done m'
    /\ (needsResize vf m = true ->
        let n := nextName (glContext m) in
        mYPlane m' = Some (mkTexture2d n (getYLineSize vf) (getHeight vf))
        /\ mUPlane m' = Some (mkTexture2d (n + 1) (getULineSize vf) (getHeight vf ÷ 2))
        /\ mVPlane m' = Some (mkTexture2d (n + 2) (getVLineSize vf) (getHeight vf ÷ 2))
        /\ mFbo m' = Some (mkFbo (n + 4) (getWidth vf) (getHeight vf)
                             (mkTexture2d (n + 3) (getWidth vf) (getHeight vf)))
        /\ nextName (glContext m') = (n + 5)%N)
    /\ (needsResize vf m = false ->
        mYPlane m' = mYPlane m /\ mUPlane m' = mUPlane m /\ mVPlane m' = mVPlane m
        /\ mFbo m' = mFbo m
        /\ nextName (glContext m') = nextName (glContext m))
    /\ (forall vf2 : VideoFrame,
          getWidth vf2 = getWidth vf -> getHeight vf2 = getHeight vf ->
          needsResize vf2 m' = false)
    /\ mShader m' = Some prog.
Proof.
  intros Hshader.
  destruct (present_done vf m prog Hshader)
    as (m' & fbo & y & u & v & Hrun & Hy1 & Hu1 & Hv1 & Hf1 & Hy & Hu & Hv & Hf
        & Hw & Hh & Hn & Hs & _).
  exists m'. split; [exact Hrun |].
  split; [| split; [| split; [| exact Hs]]].
  - intros Hneed n. rewrite Hneed in Hy1, Hu1, Hv1, Hf1, Hn.
    rewrite Hy, Hu, Hv, Hf, Hn, <- Hy1, <- Hu1, <- Hv1, <- Hf1.
    unfold resize, Fbo_create, Texture2d_create. simpl. subst n.
    replace (N.succ (nextName (glContext m))) with (nextName (glContext m) + 1)%N by lia.
    replace (N.succ (nextName (glContext m) + 1)) with (nextName (glContext m) + 2)%N by lia.
    replace (N.succ (nextName (glContext m) + 2)) with (nextName (glContext m) + 3)%N by lia.
    replace (N.succ (nextName (glContext m) + 3)) with (nextName (glContext m) + 4)%N by lia.
    replace (N.succ (nextName (glContext m) + 4)) with (nextName (glContext m) + 5)%N by lia.
    repeat split; reflexivity.
  - intros Hneed. rewrite Hneed in Hy1, Hu1, Hv1, Hf1, Hn.
    repeat split; congruence.
  - intros vf2 Hw2 Hh2. unfold needsResize.
    rewrite Hy, Hu, Hv, Hf, Hw, Hh, Hw2, Hh2, !Z.eqb_refl. reflexivity.
Qed.

(** *** C4 *)

(** C4. When a tick accepts a video frame (a program being there to draw
    with), the three plane textures and the offscreen target are created
    anew, all four from fresh names, exactly when one of them is absent or
    the frame's height or width differs from [mHeight], [mWidth]; they are
    then sized (yLineSize x height), (uLineSize x height/2), (vLineSize x
    height/2) and (width x height).  Otherwise all four stay the objects
    they were and nothing is allocated, whatever the frame's strides.  A
    further frame of the same width and height finds nothing to resize. *)
Theorem plane_cache_realloc fuel m (a : option A) s (prog : GlslProg) :
  MovieDecoder.isInitialized (mMovieDecoder m) = true ->
  pump fuel m = Some (a, s) ->
  hasVideo s = true ->
  mShader m = Some prog ->
  let vf := videoFrame s in
  let resized :=
    isNull (mYPlane m) || isNull (mUPlane m) || isNull (mVPlane m) || isNull (mFbo m)
    || negb (getHeight vf =? mHeight m) || negb (getWidth vf =? mWidth m) in
  exists m',
    update fuel m = Done m'
    /\ (resized = true <->
        mYPlane m = None \/ mUPlane m = None \/ mVPlane m = None \/ mFbo m = None
        \/ getHeight vf <> mHeight m \/ getWidth vf <> mWidth m)
    /\ (resized = true ->
        let n := nextName (glContext m) in
        mYPlane m' = Some (mkTexture2d n (getYLineSize vf) (getHeight vf))
        /\ mUPlane m' = Some (mkTexture2d (n + 1) (getULineSize vf) (getHeight vf ÷ 2))
        /\ mVPlane m' = Some (mkTexture2d (n + 2) (getVLineSize vf) (getHeight vf ÷ 2))
        /\ mFbo m' = Some (mkFbo (n + 4) (getWidth vf) (getHeight vf)
                             (mkTexture2d (n + 3) (getWidth vf) (getHeight vf)))
        /\ nextName (glContext m') = (n + 5)%N)
    /\ (resized = false ->
        mYPlane m' = mYPlane m /\ mUPlane m' = mUPlane m /\ mVPlane m' = mVPlane m
        /\ mFbo m' = mFbo m
        /\ nextName (glContext m') = nextName (glContext m))
    /\ (forall vf2 : VideoFrame,
          getWidth vf2 = getWidth vf -> getHeight vf2 = getHeight vf ->
          needsResize vf2 m' = false)
    /\ mShader m' = Some prog.
Proof.
  intros Hinit Hpump Hv Hshader vf resized.
  rewrite (update_presents fuel m a s Hinit Hpump Hv). fold vf.
  set (m1 := setTransport a (decoder s) (timer s) m).
  change resized with (needsResize vf m1).
  destruct (present_cache vf m1 prog Hshader) as (m' & Hrun & Hnew & Hkeep & Hnext & Hs).
  exists m'. split; [exact Hrun |].
  split; [exact (needsResize_spec vf m1) |].
  split; [exact Hnew |]. split; [exact Hkeep |]. split; [exact Hnext | exact Hs].
Qed.

(** ** The output texture *)

(** The transport operations other than [seekToTime] touch neither the
    output texture nor the OpenGL context. *)
Lemma transport_keeps_texture (c : Call) m :
  match c with
  | CallUpdate _ | CallSeekToTime _ => True
  | _ => forall m', call c m = Done m' ->
                    getTexture m' = getTexture m /\ glContext m' = glContext m
  end.
Proof.
  destruct c; try exact I; intros m' Hcall; simpl in Hcall;
    injection Hcall as <-;
    unfold play, stop, pause, resume, setLoop;
    destruct (MovieDecoder.isInitialized (mMovieDecoder m)); split; reflexivity.
Qed.

Lemma seekToTime_texture (seconds : float) m :
  getTexture (seekToTime seconds m)
  = (if MovieDecoder.isInitialized (mMovieDecoder m) then None else getTexture m)
  /\ glContext (seekToTime seconds m) = glContext m.
Proof.
  unfold seekToTime.
  destruct (MovieDecoder.isInitialized (mMovieDecoder m)); split; reflexivity.
Qed.

(** A tick that accepts no frame leaves them alone too. *)
Lemma update_quiet fuel m m' :
  update fuel m = Done m' -> accepts fuel m = false ->
  getTexture m' = getTexture m /\ glContext m' = glContext m.
Proof.
  unfold update, accepts.
  destruct (MovieDecoder.isInitialized (mMovieDecoder m)); simpl.
  - destruct (pump fuel m) as [[a s] |]; [| discriminate].
    intros Hrun Hv. rewrite Hv in Hrun. injection Hrun as <-. split; reflexivity.
  - intros Hrun _. injection Hrun as <-. split; reflexivity.
Qed.

(** A render that completes had a program to run. *)
Lemma present_Done_shader (vf : VideoFrame) m m' :
  present vf m = Done m' -> exists prog, mShader m = Some prog.
Proof.
  unfold present, render. intros Hrun.
  assert (Hs : mShader (upload vf (if needsResize vf m then resize vf m else m))
               = mShader m).
  { destruct (needsResize vf m); reflexivity. }
  rewrite Hs in Hrun.
  destruct (mShader m) as [prog |]; [exists prog; reflexivity |].
  destruct (mFbo _); discriminate.
Qed.

(** A tick that accepts a frame and completes puts the render of the
    program in the output texture. *)
Lemma update_accepting fuel m m' :
  update fuel m = Done m' -> accepts fuel m = true ->
  exists (fbo : Fbo) (prog : GlslProg) (y cb cr : Image) (w lw : Z),
    mShader m = Some prog /\ mFbo m' = Some fbo
    /\ getTexture m' = Some (getColorTexture fbo)
    /\ imageOf (glContext m') (getColorTexture fbo)
       = Rendered prog drawUniforms y cb cr w lw.
Proof.
  unfold update, accepts.
  destruct (MovieDecoder.isInitialized (mMovieDecoder m)); simpl; [| discriminate].
  destruct (pump fuel m) as [[a s] |]; [| discriminate].
  intros Hrun Hv. rewrite Hv in Hrun.
  destruct (present_Done_shader _ _ _ Hrun) as [prog Hprog].
  destruct (present_done (videoFrame s) _ prog Hprog)
    as (m2 & fbo & y & u & v & Hrun2 & _ & _ & _ & _ & _ & _ & _ & Hf
        & _ & _ & _ & _ & _ & _ & _ & Htex & Himg).
  rewrite Hrun in Hrun2. injection Hrun2 as <-.
  exists fbo, prog. do 5 eexists.
  split; [exact Hprog |]. split; [exact Hf |]. split; [exact Htex | exact Himg].
Qed.

Lemma quietStep_absent m m' :
  quietStep m m' -> getTexture m = None -> getTexture m' = None.
Proof.
  intros [c [Hcall Hquiet]] Hnone.
  destruct c as [fuel | | | | | seconds | loop].
  - destruct (update_quiet fuel m m' Hcall Hquiet) as [-> _]. exact Hnone.
  - destruct (transport_keeps_texture CallPlay m m' Hcall) as [-> _]. exact Hnone.
  - destruct (transport_keeps_texture CallStop m m' Hcall) as [-> _]. exact Hnone.
  - destruct (transport_keeps_texture CallPause m m' Hcall) as [-> _]. exact Hnone.
  - destruct (transport_keeps_texture CallResume m m' Hcall) as [-> _]. exact Hnone.
  - simpl in Hcall. injection Hcall as <-.
    destruct (seekToTime_texture seconds m) as [-> _].
    destruct (MovieDecoder.isInitialized _); [reflexivity | exact Hnone].
  - destruct (transport_keeps_texture (CallSetLoop loop) m m' Hcall) as [-> _].
    exact Hnone.
Qed.

Lemma quietSteps_absent m m' :
  rtc quietStep m m' -> getTexture m = None -> getTexture m' = None.
Proof.
  induction 1 as [| m1 m2 m3 Hstep _ IH]; intros Hnone; [exact Hnone |].
  apply IH. exact (quietStep_absent m1 m2 Hstep Hnone).
Qed.

(** *** C5 *)

(** C5. On a movie whose decoder is initialized, [seekToTime( t )] clears
    the buffers of the audio renderer and then sets it playing (when there
    is one), seeks the decoder to [t], restarts the timer at [t] and resets
    the output texture; [getTexture] then stays empty through any calls
    that complete, until a tick accepts a video frame. *)
Theorem seek_clears_output (seconds : float) m :
  MovieDecoder.isInitialized (mMovieDecoder m) = true ->
  let m1 := seekToTime seconds m in
  mAudioRenderer m1
  = option_map (fun a => AudioRenderer.play (AudioRenderer.clearBuffers a))
               (mAudioRenderer m)
  /\ mMovieDecoder m1 = MovieDecoder.seekToTime seconds (mMovieDecoder m)
  /\ mUpdateTimer m1 = Timer.start seconds (mUpdateTimer m)
  /\ getTexture m1 = None
  /\ (forall m', rtc quietStep m1 m' -> getTexture m' = None).
Proof.
  intros Hinit m1.
  assert (Heq : m1 = setTexture None
            (setTransport
               (option_map AudioRenderer.play
                  (option_map AudioRenderer.clearBuffers (mAudioRenderer m)))
               (MovieDecoder.seekToTime seconds (mMovieDecoder m))
               (Timer.start seconds (mUpdateTimer m)) m)).
  { subst m1. unfold seekToTime. rewrite Hinit. reflexivity. }
  assert (Hnone : getTexture m1 = None) by (rewrite Heq; reflexivity).
  split; [| split; [| split; [| split]]].
  - rewrite Heq. simpl. destruct (mAudioRenderer m); reflexivity.
  - rewrite Heq. reflexivity.
  - rewrite Heq. reflexivity.
  - exact Hnone.
  - intros m' Hsteps. exact (quietSteps_absent m1 m' Hsteps Hnone).
Qed.

(** *** C6 *)

Lemma MovieGl_new_texture (create : string -> string -> GlslProg + string)
    (d0 : D) (t0 : T) (g : GlContext) (out : list string) (playAudio : bool) m0 :
  MovieGl_new create d0 t0 g out playAudio = Some m0 ->
  getTexture m0 = None /\ glContext m0 = g.
Proof.
  unfold MovieGl_new, initializeShader.
  destruct (MovieDecoder.isInitialized d0); simpl; [| discriminate].
  destruct (MovieDecoder.hasAudio d0);
    [destruct (MovieDecoder.getAudioFormat d0) as [fmt d1] |];
    destruct (create vs fs); intros Hnew; injection Hnew as <-; split; reflexivity.
Qed.

(** C6. A completed call changes the output texture only if it is a tick
    that accepts a video frame, which leaves in it the render just drawn by
    the program, or [seekToTime] on an initialized decoder, which empties
    it.  A tick that accepts no frame, [play], [stop], [pause], [resume] and
    [setLoop] leave [getTexture] and every image of the OpenGL context as
    they were.  A newly constructed movie has no output texture, and has
    none until a tick accepts a frame. *)
Theorem output_texture_frame (c : Call) m m' :
  call c m = Done m' ->
  match c with
  | CallUpdate fuel =>
      if accepts fuel m then
        exists (fbo : Fbo) (prog : GlslProg) (y cb cr : Image) (w lw : Z),
          mShader m = Some prog /\ mFbo m' = Some fbo
          /\ getTexture m' = Some (getColorTexture fbo)
          /\ imageOf (glContext m') (getColorTexture fbo)
             = Rendered prog drawUniforms y cb cr w lw
      else getTexture m' = getTexture m /\ glContext m' = glContext m
  | CallSeekToTime _ =>
      getTexture m'
      = (if MovieDecoder.isInitialized (mMovieDecoder m) then None else getTexture m)
      /\ glContext m' = glContext m
  | _ => getTexture m' = getTexture m /\ glContext m' = glContext m
  end
  /\ (forall (create : string -> string -> GlslProg + string)
             (d0 : D) (t0 : T) (g : GlContext) (out : list string)
             (playAudio : bool) (m0 m1 : MovieGl),
        MovieGl_new create d0 t0 g out playAudio = Some m0 ->
        rtc quietStep m0 m1 -> getTexture m1 = None).
Proof.
  intros Hcall. split.
  - destruct c as [fuel | | | | | seconds | loop].
    + destruct (accepts fuel m) eqn:Hacc.
      * exact (update_accepting fuel m m' Hcall Hacc).
      * exact (update_quiet fuel m m' Hcall Hacc).
    + exact (transport_keeps_texture CallPlay m m' Hcall).
    + exact (transport_keeps_texture CallStop m m' Hcall).
    + exact (transport_keeps_texture CallPause m m' Hcall).
    + exact (transport_keeps_texture CallResume m m' Hcall).
    + simpl in Hcall. injection Hcall as <-. apply seekToTime_texture.
    + exact (transport_keeps_texture (CallSetLoop loop) m m' Hcall).
  - intros create d0 t0 g out playAudio m0 m1 Hnew Hsteps.
    apply (quietSteps_absent m0 m1 Hsteps).
    exact (proj1 (MovieGl_new_texture create d0 t0 g out playAudio m0 Hnew)).
Qed.

(** *** C7 *)

(** C7. On a movie whose decoder is initialized, [checkNewFrame] returns
    [true] exactly when there is an audio renderer and the decoder's video
    clock is strictly below that renderer's [getCurrentPts]; a movie
    without renderer has no such position, and the result is [false]. *)
Theorem checkNewFrame_behind_audio m :
  MovieDecoder.isInitialized (mMovieDecoder m) = true ->
  (checkNewFrame m = true <->
   exists a : A,
     mAudioRenderer m = Some a
     /\ (MovieDecoder.getVideoClock (mMovieDecoder m)
           <? AudioRenderer.getCurrentPts a)%float = true)
  /\ (mAudioRenderer m = None -> checkNewFrame m = false).
Proof.
  intros Hinit. unfold checkNewFrame. rewrite Hinit. simpl.
  destruct (mAudioRenderer m) as [a |]; split.
  - split.
    + intros Hlt. exists a. split; [reflexivity | exact Hlt].
    + intros (a' & Ha & Hlt). injection Ha as <-. exact Hlt.
  - discriminate.
  - split; [discriminate |]. intros (a & Ha & _). discriminate Ha.
  - reflexivity.
Qed.

(** *** C8 *)

(** Without a program, every tick that accepts a frame dereferences the
    null [mShader]. *)
Lemma update_without_shader fuel m :
  MovieDecoder.isInitialized (mMovieDecoder m) = true ->
  mShader m = None ->
  accepts fuel m = true ->
  update fuel m = NullDeref.
Proof.
  intros Hinit Hshader Hacc. unfold accepts in Hacc. rewrite Hinit in Hacc.
  unfold update. rewrite Hinit. simpl in *.
  destruct (pump fuel m) as [[a s] |]; [| discriminate].
  rewrite Hacc. unfold present, render.
  set (m1 := upload _ _).
  assert (Hs : mShader m1 = None).
  { subst m1. destruct (needsResize _ _); exact Hshader. }
  rewrite Hs. destruct (mFbo m1); reflexivity.
Qed.

(** *** C9 *)

Lemma discardLoop_pulls (k : nat) : forall fuel d d1 d2,
  pullAudio k d = Some d1 ->
  MovieDecoder.decodeAudioFrame d1 = (None, d2) ->
  (k < fuel)%nat ->
  discardLoop fuel d = Some d2.
Proof.
  induction k as [| k IH]; intros fuel d d1 d2 Hpull Hend Hfuel;
    (destruct fuel as [| fuel]; [lia |]); simpl in Hpull |- *.
  - injection Hpull as <-. rewrite Hend. reflexivity.
  - destruct (MovieDecoder.decodeAudioFrame d) as [[fr |] d']; [| discriminate].
    apply (IH fuel d' d1 d2 Hpull Hend). lia.
Qed.

(** C9. A movie without audio renderer whose stream has audio: when the
    decoder's audio pulls return a frame [k] times and then fail, a tick
    (given fuel for [k + 1] pulls) makes exactly those pulls and keeps no
    frame, and paces the video drain by the timer's [getSeconds]: [update]
    is the rest of the tick run from the drained decoder at that clock
    value.  A program being there to draw with, it completes, without
    renderer, its decoder being the drained one after the video pulls of
    the tick. *)
Theorem no_audio_path_discards fuel m (k : nat) (d1 d2 : D) :
  MovieDecoder.isInitialized (mMovieDecoder m) = true ->
  mAudioRenderer m = None ->
  MovieDecoder.hasAudio (mMovieDecoder m) = true ->
  pullAudio k (mMovieDecoder m) = Some d1 ->
  MovieDecoder.decodeAudioFrame d1 = (None, d2) ->
  (k < fuel)%nat ->
  decodeAudio fuel m = Some (None, d2, Timer.getSeconds (mUpdateTimer m))
  /\ (exists (n : nat) s,
        decodeVideo d2 (mUpdateTimer m) (Timer.getSeconds (mUpdateTimer m)) = Some s
        /\ (n <= 100)%nat
        /\ (videoFrame s, decoder s) = pullVideo n VideoFrame_new d2
        /\ pump fuel m = Some (None, s)
        /\ update fuel m
           = (if hasVideo s
              then present (videoFrame s) (setTransport None (decoder s) (timer s) m)
              else Done (setTransport None (decoder s) (timer s) m))
        /\ (mShader m <> None ->
            exists m',
              update fuel m = Done m' /\ mAudioRenderer m' = None
              /\ mMovieDecoder m' = decoder s /\ mUpdateTimer m' = timer s)).
Proof.
  intros Hinit Hnone Haudio Hpull Hend Hfuel.
  assert (Hdec : decodeAudio fuel m
                 = Some (None, d2, Timer.getSeconds (mUpdateTimer m))).
  { unfold decodeAudio. rewrite Hnone, Haudio.
    rewrite (discardLoop_pulls k fuel _ d1 d2 Hpull Hend Hfuel). reflexivity. }
  split; [exact Hdec |].
  destruct (drainLoop_total 101 (Timer.getSeconds (mUpdateTimer m))
              (1 / MovieDecoder.getFramesPerSecond d2)%float
              (drainInit d2 (mUpdateTimer m)))
    as (n & s & Hrun & Hn & Hpulls); [simpl; lia |].
  assert (Hpump : pump fuel m = Some (None, s)).
  { unfold pump. rewrite Hdec. unfold decodeVideo. rewrite Hrun. reflexivity. }
  assert (Hupd : update fuel m
           = (if hasVideo s
              then present (videoFrame s) (setTransport None (decoder s) (timer s) m)
              else Done (setTransport None (decoder s) (timer s) m))).
  { unfold update. rewrite Hinit, Hpump. reflexivity. }
  exists n, s. split; [exact Hrun |]. split; [simpl in Hn; lia |].
  split; [exact Hpulls |]. split; [exact Hpump |]. split; [exact Hupd |].
  intros Hshader. rewrite Hupd.
  destruct (hasVideo s).
  - destruct (mShader m) as [prog |] eqn:Hprog; [| congruence].
    destruct (present_done (videoFrame s)
                (setTransport None (decoder s) (timer s) m) prog Hprog)
      as (m' & fbo & y & u & v & Hdone & _ & _ & _ & _ & _ & _ & _ & _
          & _ & _ & _ & _ & Ha & Hd & Ht & _).
    exists m'. split; [exact Hdone |]. split; [exact Ha |].
    split; [exact Hd | exact Ht].
  - eexists. repeat split; reflexivity.
Qed.

End Properties.

(** ** The colour conversion *)

Section Tone.

(** GLSL's [pow], of which only [pow( x, 1.0 ) = x] is used; GLSL leaves
    the power of a negative base undefined. *)
Variable pow : Q -> Q -> Q.
Hypothesis pow_one : forall x : Q, (0 <= x)%Q -> (pow x 1 == x)%Q.

Local Open Scope Q_scope.

(** The law of the fragment program under the uniforms of [update]: for
    samples whose colour is not negative it writes the base matrix applied
    to the samples less 16/256 (luma) and 128/256 (chroma), the [- 0.5] of
    the matrix step being undone by the [+ 0.5] of the contrast step; and
    the values it takes at the samples 235/256, 128/256, 128/256. *)
Lemma neutral_tone_law :
  (brightness drawUniforms == 0 /\ contrast drawUniforms == 1
   /\ gamma drawUniforms = (1, 1, 1))
  /\ (forall s1 s2 s3 : Q,
        let law := Fragment.matrix (s1 - 16 / 256) (s2 - 128 / 256) (s3 - 128 / 256) in
        Fragment.veq (Fragment.baseColor (Fragment.yuvOf drawUniforms s1 s2 s3)) law
        /\ (Fragment.nonneg (Fragment.shift law 0.5) ->
            Fragment.veq (fst (Fragment.main pow drawUniforms s1 s2 s3))
                         (Fragment.shift law 0.5)
            /\ snd (Fragment.main pow drawUniforms s1 s2 s3) == 1))
  /\ (let base := Fragment.baseColor
                    (Fragment.yuvOf drawUniforms (sample8 235) (sample8 128) (sample8 128)) in
      let x := (219 # 256) * 1.164 - 0.5 in
      Fragment.veq base (x, x, x)
      /\ Fragment.within (1 # 1000) base 0.495
      /\ Fragment.veq
           (fst (Fragment.main pow drawUniforms (sample8 235) (sample8 128) (sample8 128)))
           (x + 0.5, x + 0.5, x + 0.5)
      /\ Fragment.within (1 # 1000) (x + 0.5, x + 0.5, x + 0.5) 0.995).
Proof.
  assert (Hbase : forall s1 s2 s3 : Q,
            Fragment.veq (Fragment.baseColor (Fragment.yuvOf drawUniforms s1 s2 s3))
              (Fragment.matrix (s1 - 16 / 256) (s2 - 128 / 256) (s3 - 128 / 256))).
  { intros s1 s2 s3.
    unfold Fragment.veq, Fragment.baseColor, Fragment.yuvOf, Fragment.matrix,
      Fragment.dot, drawUniforms; cbn [brightness].
    repeat split; ring. }
  assert (Htone : forall c c' : Fragment.vec3,
            Fragment.veq c c' ->
            Fragment.nonneg (Fragment.shift c' 0.5) ->
            Fragment.veq (Fragment.tone pow drawUniforms c) (Fragment.shift c' 0.5)).
  { intros [[r g] b] [[r' g'] b'] (Er & Eg & Eb) (Hr & Hg & Hb).
    unfold Fragment.veq, Fragment.tone, Fragment.shift, drawUniforms;
      cbn [gamma contrast].
    repeat split.
    - eapply Qeq_trans; [apply pow_one; rewrite Qmult_1_r, Er; exact Hr |].
      rewrite Er. ring.
    - eapply Qeq_trans; [apply pow_one; rewrite Qmult_1_r, Eg; exact Hg |].
      rewrite Eg. ring.
    - eapply Qeq_trans; [apply pow_one; rewrite Qmult_1_r, Eb; exact Hb |].
      rewrite Eb. ring. }
  split; [repeat split; reflexivity |]. split.
  - intros s1 s2 s3 law. split; [apply Hbase |].
    intros Hpos. split; [| reflexivity].
    unfold Fragment.main; cbn [fst].
    apply Htone; [apply Hbase | exact Hpos].
  - intros base x.
    assert (Hx : Fragment.veq base (x, x, x)).
    { subst base x. vm_compute. repeat split; reflexivity. }
    split; [exact Hx |]. split; [subst base; vm_compute; repeat split; reflexivity |].
    split; [| subst x; vm_compute; repeat split; reflexivity].
    unfold Fragment.main; cbn [fst]. fold base.
    apply (Htone base (x, x, x) Hx).
    subst x. vm_compute. repeat split; discriminate.
Qed.

End Tone.

Section TonePass.

Context {AudioFrame AudioFormat D A T : Type}.
Context {decoderOps : MovieDecoder.ops AudioFrame AudioFormat D}.
Context {rendererOps : AudioRenderer.ops AudioFrame AudioFormat A}.
Context {timerOps : Timer.ops T}.

Variable pow : Q -> Q -> Q.
Hypothesis pow_one : forall x : Q, (0 <= x)%Q -> (pow x 1 == x)%Q.

Local Open Scope Q_scope.

(** *** C10 *)

(** C10. Every tick of [update] that accepts a frame and completes leaves
    in the output texture a draw of the movie's program made with
    brightness 0, contrast 1 and gamma (1,1,1).  Under the uniforms of that
    draw, for samples whose colour is not negative, the fragment program
    writes the base matrix applied to the samples less 16/256 (luma) and
    128/256 (chroma).  For the bytes Y=235, U=128, V=128, read in 256ths,
    the three channels are equal: (219/256)*1.164 - 0.5, which is within
    0.001 of 0.495, before the contrast step, and that plus 0.5, within
    0.001 of 0.995, at the end.  The program of a constructed movie is the
    one [gl::GlslProg::create] returned for the two sources [vs] and [fs]. *)
Theorem neutral_tone_conversion fuel (m m' : @MovieGl D A T) :
  update fuel m = Done m' ->
  accepts fuel m = true ->
  (exists (tex : Texture2d) (prog : GlslProg) (u : Uniforms)
          (y cb cr : Image) (w lw : Z),
     mShader m = Some prog
     /\ getTexture m' = Some tex
     /\ imageOf (glContext m') tex = Rendered prog u y cb cr w lw
     /\ (brightness u == 0 /\ contrast u == 1 /\ gamma u = (1, 1, 1))
     /\ (forall s1 s2 s3 : Q,
           let law := Fragment.matrix (s1 - 16 / 256) (s2 - 128 / 256) (s3 - 128 / 256) in
           Fragment.veq (Fragment.baseColor (Fragment.yuvOf u s1 s2 s3)) law
           /\ (Fragment.nonneg (Fragment.shift law 0.5) ->
               Fragment.veq (fst (Fragment.main pow u s1 s2 s3))
                            (Fragment.shift law 0.5)
               /\ snd (Fragment.main pow u s1 s2 s3) == 1))
     /\ (let base := Fragment.baseColor
                       (Fragment.yuvOf u (sample8 235) (sample8 128) (sample8 128)) in
         let x := (219 # 256) * 1.164 - 0.5 in
         Fragment.veq base (x, x, x)
         /\ Fragment.within (1 # 1000) base 0.495
         /\ Fragment.veq
              (fst (Fragment.main pow u (sample8 235) (sample8 128) (sample8 128)))
              (x + 0.5, x + 0.5, x + 0.5)
         /\ Fragment.within (1 # 1000) (x + 0.5, x + 0.5, x + 0.5) 0.995))
  /\ (forall (create : string -> string -> GlslProg + string)
             (d : D) (t : T) (g : GlContext) (out : list string)
             (playAudio : bool) (m0 : MovieGl) (prog : GlslProg),
        MovieGl_new create d t g out playAudio = Some m0 ->
        mShader m0 = Some prog -> create vs fs = inl prog).
Proof.
  intros Hrun Hacc. split.
  - destruct (update_accepting fuel m m' Hrun Hacc)
      as (fbo & prog & y & cb & cr & w & lw & Hprog & _ & Htex & Himg).
    destruct (neutral_tone_law pow pow_one) as (Hu & Hlaw & Hex).
    exists (getColorTexture fbo), prog, drawUniforms, y, cb, cr, w, lw.
    split; [exact Hprog |]. split; [exact Htex |]. split; [exact Himg |].
    split; [exact Hu |]. split; [exact Hlaw | exact Hex].
  - intros create d t g out playAudio m0 prog Hnew Hprog.
    unfold MovieGl_new, initializeShader in Hnew.
    destruct (negb _); [discriminate |].
    destruct (create vs fs) as [p | what];
      (destruct (MovieDecoder.hasAudio d);
         [destruct (MovieDecoder.getAudioFormat d) as [fmt d1] |]);
      injection Hnew as <-; cbn in Hprog; congruence.
Qed.

End TonePass.

(** * Instances on the test doubles *)

(** The constructor, on a stream with audio: without and with [playAudio]. *)
Example constructed_movie :
  let d := Fixture.script 0 [] [] in
  MovieGl_new Fixture.compiles d 0%float Fixture.emptyContext [] false
  = Some (Fixture.movie d None 0 (Some Fixture.program))
  /\ MovieGl_new Fixture.compiles d 0%float Fixture.emptyContext [] true
     = Some (Fixture.movie d (Some (Fixture.mkSpeaker 4 [] 0)) 0 (Some Fixture.program))
  /\ MovieGl_new Fixture.compiles (Fixture.mkScript false true 0 30 [] [])
        0%float Fixture.emptyContext [] true
     = None.
Proof. repeat split; reflexivity. Qed.

(** At 30 frames per second and a clock value of 1.0, with no frame accepted
    yet, the decoder at video clock 1.016 is pulled (its queued frame is
    taken and accepted) and the one at 1.02 is left alone. *)
Lemma drain_admission_threshold_witness :
  let early := Fixture.script 1.016 [(1.05%float, Fixture.tiny 1)] [] in
  let late := Fixture.script 1.02 [(1.05%float, Fixture.tiny 1)] [] in
  count (drainInit early 1.0%float) < 100
  /\ fst (drainCond 1.0 (1 / 30) (drainInit early 1.0%float)) = true
  /\ decodeVideo early 1.0%float 1.0
     = Some (mkDrainState true 1 (Fixture.tiny 1) 1.05
               (Fixture.script 1.05 [] []) 1.0%float)
  /\ fst (drainCond 1.0 (1 / 30) (drainInit late 1.0%float)) = false
  /\ decodeVideo late 1.0%float 1.0 = Some (drainInit late 1.0%float).
Proof.
  intros early late.
  assert (Hcap : count (drainInit early 1.0%float) < 100) by (simpl; lia).
  assert (Hcap' : count (drainInit late 1.0%float) < 100) by (simpl; lia).
  destruct (drain_admission_threshold 1.0 (1 / 30) (drainInit early 1.0%float) Hcap)
    as (Hfirst & _ & _ & _ & Hex).
  destruct (drain_admission_threshold 1.0 (1 / 30) (drainInit late 1.0%float) Hcap')
    as (Hfirst' & _).
  destruct (Hex eq_refl early 1.0%float eq_refl) as [Hearly _].
  destruct (Hex eq_refl late 1.0%float eq_refl) as [_ Hlate].
  split; [exact Hcap |]. split; [| split; [| split]].
  - rewrite (Hfirst eq_refl). reflexivity.
  - rewrite (proj2 (Hearly eq_refl)). reflexivity.
  - rewrite (Hfirst' eq_refl). reflexivity.
  - exact (Hlate eq_refl).
Defined.


(** The same timestamps through a whole tick of a movie without audio
    renderer, the timer reading 10.0. *)
Example loop_rebase_tick :
  let d := Fixture.script 9.8
             [(9.9%float, Fixture.tiny 1); (0.05%float, Fixture.tiny 2);
              (0.1%float, Fixture.tiny 3)] [] in
  let m' := Fixture.after (CallUpdate 1)
              (Fixture.movie d None 10.0 (Some Fixture.program)) in
  mUpdateTimer m' = 0.05%float
  /\ mMovieDecoder m' = Fixture.script 0.05 [(0.1%float, Fixture.tiny 3)] []
  /\ option_map (imageOf (glContext m')) (mYPlane m')
     = Some (Uploaded (getYPlane (Fixture.tiny 2))).
Proof. vm_compute. repeat split; reflexivity. Qed.

(** A decoder that always has a frame below the threshold is pulled exactly
    100 times in a tick. *)
Example video_drain_cap_reached :
  option_map (fun s => (decoder s, count s))
    (decodeVideo (D := nat) (T := float) 0%nat 0%float 1.0)
  = Some (100%nat, 101).
Proof. vm_compute. reflexivity. Qed.

(** A 640x480 frame with strides 644, 322, 322 reaches a movie without
    textures, and at the next tick a second frame of the same width and
    height. *)
Lemma plane_cache_realloc_witness :
  let d := Fixture.script 0
             [(0.0%float, Fixture.frame 235 128 128);
              (0.04%float, Fixture.frame 16 128 128)] [] in
  let m := Fixture.movie d None 0 (Some Fixture.program) in
  exists m',
    update 1 m = Done m'
    /\ Fixture.sizeOf (mYPlane m') = Some (644, 480)
    /\ Fixture.sizeOf (mUPlane m') = Some (322, 240)
    /\ Fixture.sizeOf (mVPlane m') = Some (322, 240)
    /\ exists m'',
         update 1 (setTransport None (mMovieDecoder m') 0.04%float m') = Done m''
         /\ mYPlane m'' = mYPlane m' /\ mUPlane m'' = mUPlane m'
         /\ mVPlane m'' = mVPlane m' /\ mFbo m'' = mFbo m'
         /\ nextName (glContext m'') = nextName (glContext m').
Proof.
  intros d m.
  assert (Hinit : MovieDecoder.isInitialized (mMovieDecoder m) = true) by reflexivity.
  assert (Hpump : pump 1 m
                  = Some (None, mkDrainState true 1 (Fixture.frame 235 128 128) 0
                                  (Fixture.script 0
                                     [(0.04%float, Fixture.frame 16 128 128)] [])
                                  0%float))
    by (vm_compute; reflexivity).
  destruct (plane_cache_realloc 1 m None _ Fixture.program Hinit Hpump eq_refl eq_refl)
    as (m' & Hrun & _ & Hnew & _ & Hsame & Hshader).
  destruct (Hnew eq_refl) as (Hy & Hu & Hv & Hf & _).
  exists m'. split; [exact Hrun |].
  split; [rewrite Hy; reflexivity |].
  split; [rewrite Hu; reflexivity |].
  split; [rewrite Hv; reflexivity |].
  assert (Hd : mMovieDecoder m'
               = Fixture.script 0 [(0.04%float, Fixture.frame 16 128 128)] []).
  { vm_compute in Hrun. injection Hrun as <-. reflexivity. }
  set (m2 := setTransport None (mMovieDecoder m') 0.04%float m').
  assert (Hinit2 : MovieDecoder.isInitialized (mMovieDecoder m2) = true)
    by (subst m2; simpl; rewrite Hd; reflexivity).
  assert (Hpump2 : pump 1 m2
                   = Some (None, mkDrainState true 1 (Fixture.frame 16 128 128) 0.04
                                   (Fixture.script 0.04 [] []) 0.04%float)).
  { subst m2. unfold pump, decodeAudio. simpl. rewrite Hd. vm_compute. reflexivity. }
  destruct (plane_cache_realloc 1 m2 None _ Fixture.program Hinit2 Hpump2 eq_refl Hshader)
    as (m'' & Hrun2 & _ & _ & Hkeep & _).
  exists m''. split; [exact Hrun2 |].
  apply Hkeep. exact (Hsame (Fixture.frame 16 128 128) eq_refl eq_refl).
Defined.

(** A movie showing a frame is sought to 3.0: the output texture goes, and
    stays away through a [pause]. *)
Lemma seek_clears_output_witness :
  let d := Fixture.script 0 [(0.0%float, Fixture.tiny 1)] [1; 2]%nat in
  let m := Fixture.after (CallUpdate 4)
             (Fixture.movie d (Some (Fixture.mkSpeaker 1 [] 0.0)) 0
                            (Some Fixture.program)) in
  MovieDecoder.isInitialized (mMovieDecoder m) = true
  /\ getTexture m = Some (mkTexture2d 3 2 2)
  /\ getTexture (seekToTime 3.0 m) = None
  /\ mMovieDecoder (seekToTime 3.0 m) = Fixture.script 3.0 [] [2%nat]
  /\ mUpdateTimer (seekToTime 3.0 m) = 3.0%float
  /\ mAudioRenderer (seekToTime 3.0 m) = Some (Fixture.mkSpeaker 1 [] 0.0)
  /\ getTexture (pause (seekToTime 3.0 m)) = None.
Proof.
  intros d m.
  assert (Hinit : MovieDecoder.isInitialized (mMovieDecoder m) = true)
    by (vm_compute; reflexivity).
  destruct (seek_clears_output 3.0 m Hinit) as (Ha & Hd & Ht & Hnone & Hlater).
  split; [exact Hinit |].
  split; [vm_compute; reflexivity |].
  split; [exact Hnone |].
  split; [rewrite Hd; vm_compute; reflexivity |].
  split; [rewrite Ht; vm_compute; reflexivity |].
  split; [rewrite Ha; vm_compute; reflexivity |].
  apply Hlater. apply rtc_once. exists CallPause. split; [reflexivity | exact I].
Defined.

(** A tick that accepts a frame leaves its render in the output texture;
    the [stop] after it changes nothing of it. *)
Lemma output_texture_frame_witness :
  let d := Fixture.script 0 [(0.0%float, Fixture.tiny 7)] [] in
  let m := Fixture.movie d None 0 (Some Fixture.program) in
  let m' := Fixture.after (CallUpdate 1) m in
  call (CallUpdate 1) m = Done m'
  /\ getTexture m = None
  /\ getTexture m' = Some (mkTexture2d 3 2 2)
  /\ imageOf (glContext m') (mkTexture2d 3 2 2)
     = Rendered Fixture.program drawUniforms
         (Uploaded [7; 7; 7; 7; 7; 7; 7; 7]) (Uploaded [7; 7]) (Uploaded [7; 7]) 2 4
  /\ getTexture (stop m') = getTexture m'
  /\ glContext (stop m') = glContext m'.
Proof.
  intros d m m'.
  assert (Hcall : call (CallUpdate 1) m = Done m') by (vm_compute; reflexivity).
  assert (Hstop : call CallStop m' = Done (stop m')) by reflexivity.
  destruct (output_texture_frame (CallUpdate 1) m m' Hcall) as [Htick _].
  destruct (output_texture_frame CallStop m' (stop m') Hstop) as [[Hkeep Hgl] _].
  change (accepts 1 m) with true in Htick.
  destruct Htick as (fbo & prog & y & cb & cr & w & lw & _ & Hfbo & Htex & _).
  split; [exact Hcall |]. split; [reflexivity |].
  split; [| split; [vm_compute; reflexivity | split; [exact Hkeep | exact Hgl]]].
  rewrite Htex. assert (Hf : mFbo m' = Some (mkFbo 4 2 2 (mkTexture2d 3 2 2)))
    by (vm_compute; reflexivity).
  rewrite Hf in Hfbo. injection Hfbo as <-. reflexivity.
Defined.

(** With a renderer at position 2.5 a video clock of 1.0 is behind; without
    renderer the answer is [false]. *)
Lemma checkNewFrame_behind_audio_witness :
  let d := Fixture.script 1.0 [] [] in
  let withAudio := Fixture.movie d (Some (Fixture.mkSpeaker 2 [] 2.5)) 0 None in
  let without := Fixture.movie d None 5.0 None in
  MovieDecoder.isInitialized (mMovieDecoder withAudio) = true
  /\ checkNewFrame withAudio = true
  /\ checkNewFrame without = false.
Proof.
  intros d withAudio without.
  assert (Hinit : MovieDecoder.isInitialized (mMovieDecoder withAudio) = true)
    by reflexivity.
  assert (Hinit' : MovieDecoder.isInitialized (mMovieDecoder without) = true)
    by reflexivity.
  split; [exact Hinit |]. split.
  - apply (proj1 (checkNewFrame_behind_audio withAudio Hinit)).
    exists (Fixture.mkSpeaker 2 [] 2.5). split; reflexivity.
  - exact (proj2 (checkNewFrame_behind_audio without Hinit') eq_refl).
Defined.

(** C8. A movie whose program failed to compile: the constructor has
    reported the failure and left [mShader] null; [play] completes; the
    tick that then accepts a frame dereferences the null [mShader] at
    [mShader->uniform] and does not complete. *)
Theorem shader_failure_update_faults :
  let d := Fixture.script 0 [(0.0%float, Fixture.tiny 1)] [] in
  match MovieGl_new Fixture.failsToCompile d 0%float Fixture.emptyContext [] false with
  | Some m0 =>
      mShader m0 = None
      /\ console m0 = ["GlslProgCompileExc"%string]
      /\ accepts 1 (play m0) = true
      /\ update 1 (play m0) = NullDeref
  | None => False
  end.
Proof.
  intros d.
  destruct (MovieGl_new Fixture.failsToCompile d 0%float Fixture.emptyContext [] false)
    as [m0 |] eqn:Hnew; [| discriminate Hnew].
  vm_compute in Hnew. injection Hnew as <-.
  assert (Hacc : accepts 1 (play (Fixture.movie d None 0 None)) = true)
    by (vm_compute; reflexivity).
  split; [reflexivity |]. split; [reflexivity |]. split; [exact Hacc |].
  apply update_without_shader; [reflexivity | reflexivity | exact Hacc].
Qed.

(** Three queued audio frames and no renderer: the tick pulls the three and
    a fourth time in vain, paces the video by the timer, and completes with
    the decoder drained of its audio and of the video frame that was due. *)
Lemma no_audio_path_discards_witness :
  let d := Fixture.script 9.8 [(9.9%float, Fixture.tiny 1)] [1; 2; 3]%nat in
  let d' := Fixture.script 9.8 [(9.9%float, Fixture.tiny 1)] [] in
  let m := Fixture.movie d None 10.0 (Some Fixture.program) in
  MovieDecoder.hasAudio (mMovieDecoder m) = true
  /\ pullAudio 3 (mMovieDecoder m) = Some d'
  /\ MovieDecoder.decodeAudioFrame d' = (None, d')
  /\ decodeAudio 4 m = Some (None, d', 10.0%float)
  /\ exists m',
       update 4 m = Done m' /\ mAudioRenderer m' = None
       /\ mMovieDecoder m' = Fixture.script 9.9 [] []
       /\ mUpdateTimer m' = 10.0%float.
Proof.
  intros d d' m.
  assert (Hpull : pullAudio 3 (mMovieDecoder m) = Some d') by reflexivity.
  assert (Hend : MovieDecoder.decodeAudioFrame d' = (None, d')) by reflexivity.
  assert (Hfuel : (3 < 4)%nat) by lia.
  assert (Hinit : MovieDecoder.isInitialized (mMovieDecoder m) = true) by reflexivity.
  assert (Hnone : mAudioRenderer m = None) by reflexivity.
  assert (Hhas : MovieDecoder.hasAudio (mMovieDecoder m) = true) by reflexivity.
  destruct (no_audio_path_discards 4 m 3 d' d' Hinit Hnone Hhas Hpull Hend Hfuel)
    as (Haudio & n & s & Hvideo & _ & _ & _ & _ & Hdone).
  split; [exact Hhas |].
  split; [exact Hpull |]. split; [exact Hend |]. split; [exact Haudio |].
  destruct Hdone as (m' & Hrun & Ha & Hd & Ht); [discriminate |].
  exists m'. split; [exact Hrun |]. split; [exact Ha |].
  vm_compute in Hvideo. injection Hvideo as <-.
  split; [exact Hd | exact Ht].
Defined.

(** A tick that accepts a frame, with a [pow] that is [x] at exponent one:
    the output texture holds a draw with the neutral tone parameters, under
    which the frame Y=235, U=128, V=128 comes out at (219/256)*1.164 in
    every channel. *)
Lemma neutral_tone_conversion_witness :
  let d := Fixture.script 0 [(0.0%float, Fixture.frame 235 128 128)] [] in
  let m := Fixture.movie d None 0 (Some Fixture.program) in
  let m' := Fixture.after (CallUpdate 1) m in
  (forall x : Q, (0 <= x)%Q -> (Fixture.qpow x 1 == x)%Q)
  /\ update 1 m = Done m'
  /\ accepts 1 m = true
  /\ exists (tex : Texture2d) (u : Uniforms) (y cb cr : Image) (w lw : Z),
       getTexture m' = Some tex
       /\ imageOf (glContext m') tex = Rendered Fixture.program u y cb cr w lw
       /\ (brightness u == 0 /\ contrast u == 1 /\ gamma u = (1, 1, 1))%Q
       /\ Fragment.veq
            (fst (Fragment.main Fixture.qpow u
                    (sample8 235) (sample8 128) (sample8 128)))
            ((219 # 256) * 1.164, (219 # 256) * 1.164, (219 # 256) * 1.164)%Q.
Proof.
  intros d m m'.
  assert (Hpow : forall x : Q, (0 <= x)%Q -> (Fixture.qpow x 1 == x)%Q).
  { intros x _. unfold Fixture.qpow. simpl. reflexivity. }
  assert (Hrun : update 1 m = Done m') by (vm_compute; reflexivity).
  assert (Hacc : accepts 1 m = true) by (vm_compute; reflexivity).
  split; [exact Hpow |]. split; [exact Hrun |]. split; [exact Hacc |].
  destruct (neutral_tone_conversion Fixture.qpow Hpow 1 m m' Hrun Hacc)
    as [(tex & prog & u & y & cb & cr & w & lw & Hprog & Htex & Himg & Hu & _
         & _ & _ & Hfinal & _) _].
  change (mShader m) with (Some Fixture.program) in Hprog. injection Hprog as <-.
  exists tex, u, y, cb, cr, w, lw.
  split; [exact Htex |]. split; [exact Himg |]. split; [exact Hu |].
  destruct (fst (Fragment.main Fixture.qpow u
                   (sample8 235) (sample8 128) (sample8 128))) as [[r g] b].
  destruct Hfinal as (Er & Eg & Eb).
  unfold Fragment.veq. rewrite Er, Eg, Eb. repeat split; ring.
Defined.

(** * Further properties of the code *)

Section Guards.

Context {AudioFrame AudioFormat D A T : Type}.
Context {decoderOps : MovieDecoder.ops AudioFrame AudioFormat D}.
Context {rendererOps : AudioRenderer.ops AudioFrame AudioFormat A}.
Context {timerOps : Timer.ops T}.

Implicit Types (m : @MovieGl D A T) (s : @DrainState D T) (d : D) (t : T).

(** ** The initialization guard *)

(** X1. While the decoder reports that it is not initialized, every public
    call returns at once and leaves the whole movie as it was, and
    [checkNewFrame] answers [false]. *)
Theorem uninitialized_calls_noop m :
  MovieDecoder.isInitialized (mMovieDecoder m) = false ->
  (forall c : Call, call c m = Done m) /\ checkNewFrame m = false.
Proof.
  intros Hinit. split.
  - intros c. destruct c; simpl;
      unfold update, play, stop, pause, resume, seekToTime, setLoop;
      rewrite Hinit; reflexivity.
  - unfold checkNewFrame. rewrite Hinit. destruct (mAudioRenderer m); reflexivity.
Qed.

(** ** The constructor *)

(** X2. The constructor throws exactly when the decoder is not initialized.
    Otherwise the movie has an audio renderer exactly when the stream has
    audio and [playAudio] is set, no texture, plane or target, the current
    context untouched, and either the compiled program and an unchanged
    console or no program and the exception's message appended to the
    console. *)
Theorem constructor_outcome (create : string -> string -> GlslProg + string)
    d t (g : GlContext) (out : list string) (playAudio : bool) :
  (MovieGl_new create d t g out playAudio = None
   <-> MovieDecoder.isInitialized d = false)
  /\ (forall m0, MovieGl_new create d t g out playAudio = Some m0 ->
        isNull (mAudioRenderer m0) = negb (MovieDecoder.hasAudio d && playAudio)
        /\ mMovieDecoder m0
           = (if MovieDecoder.hasAudio d then snd (MovieDecoder.getAudioFormat d) else d)
        /\ mUpdateTimer m0 = t
        /\ (mYPlane m0 = None /\ mUPlane m0 = None /\ mVPlane m0 = None
            /\ mFbo m0 = None /\ mTexture m0 = None)
        /\ glContext m0 = g
        /\ match create vs fs with
           | inl prog => mShader m0 = Some prog /\ console m0 = out
           | inr what => mShader m0 = None /\ console m0 = out ++ [what]
           end).
Proof.
  unfold MovieGl_new, initializeShader.
  destruct (MovieDecoder.isInitialized d); simpl.
  - split; [split; [| discriminate] |].
    + destruct (MovieDecoder.hasAudio d);
        [destruct (MovieDecoder.getAudioFormat d) |]; discriminate.
    + intros m0.
      destruct (MovieDecoder.hasAudio d);
        [destruct (MovieDecoder.getAudioFormat d) as [fmt d1] |];
        destruct playAudio; destruct (create vs fs);
        intros Hnew; injection Hnew as <-; simpl; repeat split; reflexivity.
  - split; [split; reflexivity | discriminate].
Qed.

(** ** The drain loop, continued *)

(** Once a frame has been accepted the flag stays set. *)
Lemma drainLoop_hasVideo fuel : forall (currentPts frameDuration : float) s s',
  drainLoop fuel currentPts frameDuration s = Some s' ->
  hasVideo s = true -> hasVideo s' = true.
Proof.
  induction fuel as [| fuel IH]; intros currentPts frameDuration s s' Hrun Hv;
    [discriminate |].
  rewrite drainLoop_unfold, drainCond_eq in Hrun.
  destruct (_ <? _)%float; cbn [fst snd] in Hrun;
    [| injection Hrun as <-; exact Hv].
  destruct (count s <? 100); [| injection Hrun as <-; exact Hv].
  unfold drainBody in Hrun. cbn [counted videoFrame decoder hasVideo
    currentVideoClock count timer] in Hrun.
  destruct (MovieDecoder.decodeVideoFrame (videoFrame s) (decoder s)) as [[ok vf] d'].
  destruct ok.
  - destruct (_ <? _)%float.
    + injection Hrun as <-. reflexivity.
    + apply (IH _ _ _ _ Hrun). reflexivity.
  - injection Hrun as <-. exact Hv.
Qed.

Lemma decodeVideo_returns d t (currentPts : float) :
  exists s', decodeVideo d t currentPts = Some s'.
Proof.
  destruct (drainLoop_total 101 currentPts
              (1 / MovieDecoder.getFramesPerSecond d)%float (drainInit d t))
    as (k & s' & Hrun & _); [simpl; lia |].
  exists s'. exact Hrun.
Qed.

(** X3. A tick accepts a video frame exactly when its first comparison
    admits a pull and that first pull yields a frame.  When it accepts
    none, the decoder has been asked for video at most once. *)
Theorem tick_accepts_iff_first_pull d t (currentPts : float) :
  exists s',
    decodeVideo d t currentPts = Some s'
    /\ (hasVideo s' = true <->
        (MovieDecoder.getVideoClock d
           <? currentPts + 1 / MovieDecoder.getFramesPerSecond d * 0.5)%float = true
        /\ fst (fst (MovieDecoder.decodeVideoFrame VideoFrame_new d)) = true)
    /\ (hasVideo s' = false ->
        decoder s' = d
        \/ decoder s' = snd (MovieDecoder.decodeVideoFrame VideoFrame_new d)).
Proof.
  destruct (decodeVideo_returns d t currentPts) as [s' Hrun].
  exists s'. split; [exact Hrun |].
  unfold decodeVideo in Hrun.
  rewrite drainLoop_unfold, drainCond_eq in Hrun.
  cbn [drainInit hasVideo decoder count] in Hrun.
  destruct (_ <? _)%float; cbn [fst snd Z.ltb Z.compare] in Hrun.
  - unfold drainBody in Hrun.
    cbn [counted drainInit videoFrame decoder hasVideo currentVideoClock count timer]
      in Hrun.
    destruct (MovieDecoder.decodeVideoFrame VideoFrame_new d) as [[ok vf] d'].
    cbn [fst snd]. destruct ok.
    + assert (Hv : hasVideo s' = true).
      { destruct (_ <? _)%float.
        - injection Hrun as <-. reflexivity.
        - apply (drainLoop_hasVideo _ _ _ _ _ Hrun). reflexivity. }
      rewrite Hv. split; [tauto | discriminate].
    + injection Hrun as <-. cbn [hasVideo decoder].
      split; [| intros _; right; reflexivity].
      split; [discriminate | intros [_ H]; discriminate H].
  - injection Hrun as <-. cbn [hasVideo decoder drainInit].
    split; [| intros _; left; reflexivity].
    split; [discriminate | intros [H _]; discriminate H].
Qed.

End Guards.

Section Pump.

Context {AudioFrame AudioFormat D A T : Type}.
Context {decoderOps : MovieDecoder.ops AudioFrame AudioFormat D}.
Context {rendererOps : AudioRenderer.ops AudioFrame AudioFormat A}.
Context {timerOps : Timer.ops T}.

Implicit Types (m : @MovieGl D A T) (s : @DrainState D T) (d : D) (t : T) (a : A).

(** ** The timer in the drain loop *)

Lemma drainLoop_timer fuel : forall (currentPts frameDuration : float) s s',
  drainLoop fuel currentPts frameDuration s = Some s' ->
  timer s' = timer s
  \/ (hasVideo s' = true
      /\ timer s' = Timer.start (MovieDecoder.getVideoClock (decoder s')) (timer s)
      /\ (MovieDecoder.getVideoClock (decoder s') <? currentVideoClock s')%float = true).
Proof.
  induction fuel as [| fuel IH]; intros currentPts frameDuration s s' Hrun;
    [discriminate |].
  rewrite drainLoop_unfold, drainCond_eq in Hrun.
  destruct (_ <? _)%float; cbn [fst snd] in Hrun;
    [| injection Hrun as <-; left; reflexivity].
  destruct (count s <? 100); [| injection Hrun as <-; left; reflexivity].
  unfold drainBody in Hrun. cbn [counted videoFrame decoder hasVideo
    currentVideoClock count timer] in Hrun.
  destruct (MovieDecoder.decodeVideoFrame (videoFrame s) (decoder s)) as [[ok vf] d'].
  destruct ok.
  - destruct (_ <? _)%float eqn:Hwrap.
    + injection Hrun as <-. right. cbn [hasVideo timer decoder currentVideoClock].
      split; [reflexivity |]. split; [reflexivity | exact Hwrap].
    + apply IH in Hrun. exact Hrun.
  - injection Hrun as <-. left. reflexivity.
Qed.

(** X4. A tick leaves the wall-clock timer alone unless it ends on a frame
    whose timestamp is below the one observed before it; it then has
    accepted that frame and restarted the timer at the decoder's video
    clock.  No other path through the drain touches the timer. *)
Theorem tick_timer_rebased_only_on_wrap fuel m (a : option A) s' :
  pump fuel m = Some (a, s') ->
  timer s' = mUpdateTimer m
  \/ (hasVideo s' = true
      /\ timer s' = Timer.start (MovieDecoder.getVideoClock (decoder s')) (mUpdateTimer m)
      /\ (MovieDecoder.getVideoClock (decoder s') <? currentVideoClock s')%float = true).
Proof.
  unfold pump. destruct (decodeAudio fuel m) as [[[a1 d1] pts] |]; [| discriminate].
  destruct (decodeVideo d1 (mUpdateTimer m) pts) as [s |] eqn:Hrun; [| discriminate].
  intros Hpump. injection Hpump as <- <-.
  exact (drainLoop_timer _ _ _ _ _ Hrun).
Qed.

(** ** The audio drain with a renderer *)

Lemma queueAll_snoc (frames : list AudioFrame) (f : AudioFrame) a :
  queueAll (frames ++ [f]) a = AudioRenderer.queueFrame f (queueAll frames a).
Proof. unfold queueAll. rewrite fold_left_app. reflexivity. Qed.

(** X5. When the loop feeding the renderer returns, the renderer has been
    given exactly the frames the decoder handed out, in their order, each
    one at a moment the renderer reported buffer space; and the loop ended
    either because the renderer has no space left, the decoder then not
    having been asked again, or because a pull returned no frame. *)
Theorem audio_queue_drain fuel : forall a d a' (d' : D),
  queueLoop fuel a d = Some (a', d') ->
  exists (frames : list AudioFrame) (d1 : D),
    feeds frames d d1
    /\ a' = queueAll frames a
    /\ (forall n : nat, (n < length frames)%nat ->
          AudioRenderer.hasBufferSpace (queueAll (firstn n frames) a) = true)
    /\ ((AudioRenderer.hasBufferSpace a' = false /\ d' = d1)
        \/ (AudioRenderer.hasBufferSpace a' = true
            /\ MovieDecoder.decodeAudioFrame d1 = (None, d'))).
Proof.
  induction fuel as [| fuel IH]; intros a d a' d' Hrun; [discriminate |].
  simpl in Hrun.
  destruct (AudioRenderer.hasBufferSpace a) eqn:Hspace.
  - destruct (MovieDecoder.decodeAudioFrame d) as [[f |] d2] eqn:Hpull.
    + destruct (IH _ _ _ _ Hrun) as (frames & d1 & Hfeeds & Ha & Hroom & Hend).
      exists (f :: frames), d1. split; [exists d2; split; [exact Hpull | exact Hfeeds] |].
      split; [exact Ha |]. split; [| exact Hend].
      intros [| n] Hn; [exact Hspace |].
      apply (Hroom n). simpl in Hn. lia.
    + injection Hrun as <- <-. exists [], d.
      split; [reflexivity |]. split; [reflexivity |].
      split; [intros n Hn; simpl in Hn; lia |].
      right. split; [exact Hspace | exact Hpull].
  - injection Hrun as <- <-. exists [], d.
    split; [reflexivity |]. split; [reflexivity |].
    split; [intros n Hn; simpl in Hn; lia |].
    left. split; [exact Hspace | reflexivity].
Qed.

(** ** Termination of the audio drain *)

Section Capacity.

(** A count of the renderer's free buffers, which every queued frame
    takes from. *)
Variable free : A -> nat.
Hypothesis queue_takes : forall (f : AudioFrame) a,
  AudioRenderer.hasBufferSpace a = true ->
  (free (AudioRenderer.queueFrame f a) < free a)%nat.

Lemma queueLoop_returns fuel : forall a d,
  (free a < fuel)%nat ->
  exists a' (d' : D), queueLoop fuel a d = Some (a', d') /\ (free a' <= free a)%nat.
Proof.
  induction fuel as [| fuel IH]; intros a d Hfuel; [lia |].
  simpl. destruct (AudioRenderer.hasBufferSpace a) eqn:Hspace;
    [| exists a, d; split; [reflexivity | lia]].
  destruct (MovieDecoder.decodeAudioFrame d) as [[f |] d2];
    [| exists a, d2; split; [reflexivity | lia]].
  pose proof (queue_takes f a Hspace) as Hless.
  destruct (IH (AudioRenderer.queueFrame f a) d2) as (a' & d' & Hrun & Hle); [lia |].
  exists a', d'. split; [exact Hrun | lia].
Qed.

(** X6. With a renderer whose free buffers go down with every frame
    queued, the loop feeding it returns (the fuel exceeding the free
    buffers).  The tick then flushes the renderer, takes its
    [getCurrentPts] after the flush as the clock value of the video drain
    run from the decoder the loop left, and, a program being there,
    completes with the flushed renderer and the decoder and timer the
    drain left. *)
Theorem audio_drain_returns fuel m a (prog : GlslProg) :
  MovieDecoder.isInitialized (mMovieDecoder m) = true ->
  mAudioRenderer m = Some a ->
  mShader m = Some prog ->
  (free a < fuel)%nat ->
  exists (a1 : A) (d1 : D) s,
    queueLoop fuel a (mMovieDecoder m) = Some (a1, d1)
    /\ decodeAudio fuel m
       = Some (Some (AudioRenderer.flushBuffers a1), d1,
               AudioRenderer.getCurrentPts (AudioRenderer.flushBuffers a1))
    /\ decodeVideo d1 (mUpdateTimer m)
         (AudioRenderer.getCurrentPts (AudioRenderer.flushBuffers a1)) = Some s
    /\ update fuel m
       = (let m1 := setTransport (Some (AudioRenderer.flushBuffers a1))
                      (decoder s) (timer s) m in
          if hasVideo s then present (videoFrame s) m1 else Done m1)
    /\ exists m',
         update fuel m = Done m'
         /\ mAudioRenderer m' = Some (AudioRenderer.flushBuffers a1)
         /\ mMovieDecoder m' = decoder s /\ mUpdateTimer m' = timer s.
Proof.
  intros Hinit Ha Hprog Hfuel.
  destruct (queueLoop_returns fuel a (mMovieDecoder m) Hfuel) as (a1 & d1 & Hrun & _).
  assert (Haudio : decodeAudio fuel m
            = Some (Some (AudioRenderer.flushBuffers a1), d1,
                    AudioRenderer.getCurrentPts (AudioRenderer.flushBuffers a1))).
  { unfold decodeAudio. rewrite Ha, Hrun. reflexivity. }
  destruct (decodeVideo_returns d1 (mUpdateTimer m)
              (AudioRenderer.getCurrentPts (AudioRenderer.flushBuffers a1)))
    as [s Hs].
  assert (Hupd : update fuel m
            = (let m1 := setTransport (Some (AudioRenderer.flushBuffers a1))
                           (decoder s) (timer s) m in
               if hasVideo s then present (videoFrame s) m1 else Done m1)).
  { unfold update, pump. rewrite Hinit, Haudio, Hs. reflexivity. }
  exists a1, d1, s. split; [exact Hrun |]. split; [exact Haudio |].
  split; [exact Hs |]. split; [exact Hupd |].
  rewrite Hupd. cbv zeta. destruct (hasVideo s).
  - destruct (present_done (videoFrame s)
                (setTransport (Some (AudioRenderer.flushBuffers a1)) (decoder s)
                   (timer s) m)
                prog Hprog)
      as (m' & fbo & y & u & v & Hdone & _ & _ & _ & _ & _ & _ & _ & _
          & _ & _ & _ & _ & Ha' & Hd' & Ht' & _).
    exists m'. split; [exact Hdone |]. split; [exact Ha' |].
    split; [exact Hd' | exact Ht'].
  - eexists. repeat split; reflexivity.
Qed.

End Capacity.

(** ** The audio clock *)

Lemma drainLoop_sameButTimer fuel : forall (currentPts frameDuration : float) s1 s2,
  sameButTimer s1 s2 ->
  match drainLoop fuel currentPts frameDuration s1,
        drainLoop fuel currentPts frameDuration s2 with
  | Some r1, Some r2 => sameButTimer r1 r2
  | None, None => True
  | _, _ => False
  end.
Proof.
  induction fuel as [| fuel IH]; intros currentPts frameDuration s1 s2 Hsame;
    [exact I |].
  destruct Hsame as (Hv & Hc & Hf & Hk & Hd).
  rewrite !drainLoop_unfold, !drainCond_eq, <- Hv, <- Hd, <- Hc.
  destruct (_ <? _)%float; cbn [fst snd];
    [| repeat split; assumption].
  destruct (count s1 <? 100);
    [| unfold sameButTimer, counted; cbn; repeat split; congruence].
  unfold drainBody. cbn [counted videoFrame decoder hasVideo currentVideoClock
    count timer]. rewrite <- Hf, <- Hd, <- Hk, <- Hc, <- Hv.
  destruct (MovieDecoder.decodeVideoFrame (videoFrame s1) (decoder s1)) as [[ok vf] d'].
  destruct ok.
  - destruct (_ <? _)%float.
    + unfold sameButTimer; cbn; repeat split; reflexivity.
    + apply IH. unfold sameButTimer; cbn; repeat split; reflexivity.
  - unfold sameButTimer; cbn; repeat split; reflexivity.
Qed.

(** X7. With an audio renderer the wall-clock timer has no say in a tick:
    whatever the timer reads, the same audio frames are queued, the same
    video frames are pulled and the same frame is accepted. *)
Theorem audio_clock_ignores_timer fuel m a t' :
  mAudioRenderer m = Some a ->
  match pump fuel m,
        pump fuel (setTransport (mAudioRenderer m) (mMovieDecoder m) t' m) with
  | Some (a1, s1), Some (a2, s2) => a1 = a2 /\ sameButTimer s1 s2
  | None, None => True
  | _, _ => False
  end.
Proof.
  intros Ha. unfold pump, decodeAudio. cbn [setTransport mAudioRenderer
    mMovieDecoder mUpdateTimer]. rewrite Ha.
  destruct (queueLoop fuel a (mMovieDecoder m)) as [[a1 d1] |]; [| exact I].
  unfold decodeVideo.
  pose proof (drainLoop_sameButTimer 101
                (AudioRenderer.getCurrentPts (AudioRenderer.flushBuffers a1))
                (1 / MovieDecoder.getFramesPerSecond d1)%float
                (drainInit d1 (mUpdateTimer m)) (drainInit d1 t')) as Hsame.
  destruct (drainLoop 101 _ _ (drainInit d1 (mUpdateTimer m))) as [r1 |];
    destruct (drainLoop 101 _ _ (drainInit d1 t')) as [r2 |];
    try (apply Hsame; unfold sameButTimer; repeat split; reflexivity).
  split; [reflexivity |].
  apply Hsame; unfold sameButTimer; repeat split; reflexivity.
Qed.

End Pump.

Section Cache.

Context {AudioFrame AudioFormat D A T : Type}.
Context {decoderOps : MovieDecoder.ops AudioFrame AudioFormat D}.
Context {rendererOps : AudioRenderer.ops AudioFrame AudioFormat A}.
Context {timerOps : Timer.ops T}.

Implicit Types (m : @MovieGl D A T) (s : @DrainState D T) (d : D) (t : T).

(** ** The shape of the cache *)

(** The calls other than [update] leave the cache and the context alone,
    and keep or reset the output texture. *)
Lemma transport_keeps_cache (c : Call) m m' :
  match c with CallUpdate _ => False | _ => True end ->
  call c m = Done m' ->
  mYPlane m' = mYPlane m /\ mUPlane m' = mUPlane m /\ mVPlane m' = mVPlane m
  /\ mFbo m' = mFbo m /\ glContext m' = glContext m
  /\ (mTexture m' = mTexture m \/ mTexture m' = None).
Proof.
  intros Hc Hcall. destruct c; try contradiction; simpl in Hcall;
    injection Hcall as <-;
    unfold play, stop, pause, resume, seekToTime, setLoop;
    destruct (MovieDecoder.isInitialized (mMovieDecoder m));
    repeat split; try reflexivity; try (left; reflexivity); right; reflexivity.
Qed.

(** A tick that completes either leaves the cache alone, or has presented
    a frame. *)
Lemma update_Done_cases fuel m m' :
  update fuel m = Done m' ->
  (accepts fuel m = false
   /\ mYPlane m' = mYPlane m /\ mUPlane m' = mUPlane m /\ mVPlane m' = mVPlane m
   /\ mFbo m' = mFbo m /\ glContext m' = glContext m /\ mTexture m' = mTexture m)
  \/ (accepts fuel m = true
      /\ exists (a : option A) s,
           pump fuel m = Some (a, s) /\ hasVideo s = true
           /\ present (videoFrame s) (setTransport a (decoder s) (timer s) m) = Done m').
Proof.
  unfold update, accepts.
  destruct (MovieDecoder.isInitialized (mMovieDecoder m)); simpl.
  - destruct (pump fuel m) as [[a s] |]; [| discriminate].
    destruct (hasVideo s) eqn:Hv; intros Hrun.
    + right. split; [reflexivity |]. exists a, s. repeat split; assumption.
    + left. injection Hrun as <-. repeat split; reflexivity.
  - intros Hrun. injection Hrun as <-. left. repeat split; reflexivity.
Qed.

Lemma present_cacheInv (vf : VideoFrame) m m' :
  cacheInv m -> present vf m = Done m' -> cacheInv m'.
Proof.
  intros [_ Hshape] Hrun.
  destruct (present_Done_shader vf m m' Hrun) as [prog Hprog].
  destruct (present_done vf m prog Hprog)
    as (m2 & fbo & y & u & v & Hrun2 & Hy1 & Hu1 & Hv1 & Hf1 & Hy & Hu & Hv & Hf
        & _ & _ & Hn & _ & _ & _ & _ & Htex & _).
  rewrite Hrun in Hrun2. injection Hrun2 as <-.
  split; [right; rewrite Hf; exact Htex |].
  right. exists y, u, v, fbo.
  split; [exact Hy |]. split; [exact Hu |]. split; [exact Hv |]. split; [exact Hf |].
  rewrite Hn. destruct (needsResize vf m) eqn:Hneed.
  - unfold resize, Fbo_create, Texture2d_create in Hy1, Hu1, Hv1, Hf1 |- *.
    simpl in Hy1, Hu1, Hv1, Hf1 |- *.
    injection Hy1 as <-. injection Hu1 as <-. injection Hv1 as <-. injection Hf1 as <-.
    simpl. repeat split; lia.
  - destruct Hshape as [(Hnone & _) | (y0 & u0 & v0 & fbo0 & Ey & Eu & Ev & Ef & Hrest)];
      [congruence |].
    assert (y0 = y) by congruence. assert (u0 = u) by congruence.
    assert (v0 = v) by congruence. assert (fbo0 = fbo) by congruence.
    subst y0 u0 v0 fbo0. exact Hrest.
Qed.

Lemma setTransport_cacheInv (a : option A) d t m :
  cacheInv m -> cacheInv (setTransport a d t m).
Proof. intros H. exact H. Qed.

Lemma step_cacheInv m m' : cacheInv m -> step m m' -> cacheInv m'.
Proof.
  intros Hinv [c Hcall]. destruct c as [fuel | | | | | seconds | loop].
  1: { simpl in Hcall. destruct (update_Done_cases fuel m m' Hcall)
         as [(_ & Hy & Hu & Hv & Hf & Hg & Ht) | (_ & a & s & _ & _ & Hrun)].
       - unfold cacheInv. rewrite Hy, Hu, Hv, Hf, Hg, Ht. exact Hinv.
       - apply (present_cacheInv _ _ _ (setTransport_cacheInv a _ _ m Hinv) Hrun). }
  all: match type of Hcall with
       | call ?c _ = _ =>
           destruct (transport_keeps_cache c m m' I Hcall)
             as (Hy & Hu & Hv & Hf & Hg & [Ht | Ht])
       end;
       unfold cacheInv; rewrite Hy, Hu, Hv, Hf, Hg, Ht;
       destruct Hinv as [Htex Hshape];
       (split; [first [exact Htex | left; reflexivity] | exact Hshape]).
Qed.

Lemma constructor_fields (create : string -> string -> GlslProg + string)
    d t (g : GlContext) (out : list string) (playAudio : bool) m0 :
  MovieGl_new create d t g out playAudio = Some m0 ->
  mYPlane m0 = None /\ mUPlane m0 = None /\ mVPlane m0 = None
  /\ mFbo m0 = None /\ mTexture m0 = None.
Proof.
  unfold MovieGl_new, initializeShader.
  destruct (MovieDecoder.isInitialized d); simpl; [| discriminate].
  destruct (MovieDecoder.hasAudio d);
    [destruct (MovieDecoder.getAudioFormat d) as [fmt d1] |];
    destruct (create vs fs); intros Hnew; injection Hnew as <-;
    repeat split; reflexivity.
Qed.

(** X8. Every movie that a program can hold (constructed, then driven by
    any calls that complete) keeps its cache in shape: the three planes and
    the target are all null or all there; when there they are four
    distinct textures of the context, with both chroma planes half the luma
    height and the target as high as the luma plane; and the output
    texture, when set, is the colour texture of the current target. *)
Theorem reachable_cache_shape m : reachable m -> cacheInv m.
Proof.
  intros (create & d0 & t0 & g & out & playAudio & m0 & Hnew & Hsteps).
  assert (H0 : cacheInv m0).
  { destruct (constructor_fields create d0 t0 g out playAudio m0 Hnew)
      as (Hy & Hu & Hv & Hf & Ht).
    split; [left; exact Ht |]. left. repeat split; assumption. }
  clear Hnew. induction Hsteps as [| m1 m2 m3 Hstep _ IH]; [exact H0 |].
  apply IH. exact (step_cacheInv m1 m2 H0 Hstep).
Qed.

End Cache.

Section Render.

Context {AudioFrame AudioFormat D A T : Type}.
Context {decoderOps : MovieDecoder.ops AudioFrame AudioFormat D}.
Context {rendererOps : AudioRenderer.ops AudioFrame AudioFormat A}.
Context {timerOps : Timer.ops T}.

Implicit Types (m : @MovieGl D A T) (s : @DrainState D T) (d : D) (t : T).

(** ** What a presented frame writes *)

Lemma upload_imageOf (vf : VideoFrame) m (y u v : Texture2d) :
  mYPlane m = Some y -> mUPlane m = Some u -> mVPlane m = Some v ->
  texName y <> texName u -> texName y <> texName v -> texName u <> texName v ->
  imageOf (glContext (upload vf m)) y = planeBytes y (getYPlane vf)
  /\ imageOf (glContext (upload vf m)) u = planeBytes u (getUPlane vf)
  /\ imageOf (glContext (upload vf m)) v = planeBytes v (getVPlane vf).
Proof.
  intros Hy Hu Hv Hyu Hyv Huv.
  unfold upload, uploadPlane, imageOf, planeBytes. rewrite Hy, Hu, Hv.
  unfold setGlContext, setPlanes, texSubImage2D. cbn [glContext images].
  repeat split.
  - rewrite lookup_insert_ne by congruence. rewrite lookup_insert_ne by congruence.
    rewrite lookup_insert_eq. reflexivity.
  - rewrite lookup_insert_ne by congruence. rewrite lookup_insert_eq. reflexivity.
  - rewrite lookup_insert_eq. reflexivity.
Qed.

(** X9. On a movie whose cache is in shape, a tick that accepts a frame
    (a program being there) leaves in the output texture the draw of that
    program, with the uniforms of [update], over exactly this frame's three
    planes: each plane texture holds the first width x height bytes of the
    frame's plane, and the rectangle drawn spans the frame's width of the
    luma texture's width. *)
Theorem tick_renders_accepted_frame fuel m (a : option A) s (prog : GlslProg) :
  cacheInv m ->
  MovieDecoder.isInitialized (mMovieDecoder m) = true ->
  pump fuel m = Some (a, s) ->
  hasVideo s = true ->
  mShader m = Some prog ->
  exists m' (tex y u v : Texture2d),
    update fuel m = Done m'
    /\ getTexture m' = Some tex
    /\ mYPlane m' = Some y /\ mUPlane m' = Some u /\ mVPlane m' = Some v
    /\ imageOf (glContext m') y = planeBytes y (getYPlane (videoFrame s))
    /\ imageOf (glContext m') u = planeBytes u (getUPlane (videoFrame s))
    /\ imageOf (glContext m') v = planeBytes v (getVPlane (videoFrame s))
    /\ imageOf (glContext m') tex
       = Rendered prog drawUniforms
           (planeBytes y (getYPlane (videoFrame s)))
           (planeBytes u (getUPlane (videoFrame s)))
           (planeBytes v (getVPlane (videoFrame s)))
           (getWidth (videoFrame s)) (texWidth y).
Proof.
  intros Hinv Hinit Hpump Hv Hprog.
  rewrite (update_presents fuel m a s Hinit Hpump Hv).
  set (vf := videoFrame s).
  set (m1 := setTransport a (decoder s) (timer s) m).
  assert (Hinv1 : cacheInv m1) by exact Hinv.
  destruct (present_done vf m1 prog Hprog)
    as (m' & fbo & y & u & v & Hrun & Hy1 & Hu1 & Hv1 & Hf1 & Hy & Hu & Hvv & Hf
        & _ & _ & _ & _ & _ & _ & _ & Htex & Himg).
  destruct (present_cacheInv vf m1 m' Hinv1 Hrun) as [_ Hshape].
  destruct Hshape as [(Hnone & _) | (y0 & u0 & v0 & fbo0 & Ey & Eu & Ev & Ef
                                      & Hyu & Hvc & _)]; [congruence |].
  assert (y0 = y) by congruence. assert (u0 = u) by congruence.
  assert (v0 = v) by congruence. assert (fbo0 = fbo) by congruence.
  subst y0 u0 v0 fbo0.
  set (m2 := if needsResize vf m1 then resize vf m1 else m1) in *.
  destruct (upload_imageOf vf m2 y u v Hy1 Hu1 Hv1) as (Iy & Iu & Iv); try lia.
  rewrite Iy, Iu, Iv in Himg.
  destruct (upload_members vf m2) as (Uy & Uu & Uv & Uf & Us & _).
  assert (Hs2 : mShader m2 = Some prog)
    by (subst m2; destruct (needsResize vf m1); exact Hprog).
  assert (Hrd := render_done (upload vf m2) prog fbo y u v
                   ltac:(congruence) ltac:(congruence) ltac:(congruence)
                   ltac:(congruence) ltac:(congruence)).
  assert (Hctx : forall tex : Texture2d,
            (texName tex < texName (getColorTexture fbo))%N ->
            imageOf (glContext m') tex = imageOf (glContext (upload vf m2)) tex).
  { intros tex Hlt. pose proof Hrun as Hrun'. unfold present in Hrun'. fold m2 in Hrun'.
    rewrite Hrd in Hrun'. injection Hrun' as <-.
    unfold imageOf. cbn [setTexture setGlContext setPlanes glContext drawInto images].
    rewrite lookup_insert_ne by lia. reflexivity. }
  exists m', (getColorTexture fbo), y, u, v.
  split; [exact Hrun |]. split; [exact Htex |].
  split; [exact Hy |]. split; [exact Hu |]. split; [exact Hvv |].
  split; [rewrite Hctx by lia; exact Iy |].
  split; [rewrite Hctx by lia; exact Iu |].
  split; [rewrite Hctx by lia; exact Iv | exact Himg].
Qed.

(** X11. On a movie whose cache is in shape and which shows a texture, a
    tick (the decoder being initialized) that accepts a frame of another
    width or height reallocates: [getTexture] then returns another texture
    object than before, as wide and as high as the frame. *)
Theorem resize_gives_new_texture fuel m (a : option A) s (tex : Texture2d) m' :
  cacheInv m ->
  MovieDecoder.isInitialized (mMovieDecoder m) = true ->
  getTexture m = Some tex ->
  pump fuel m = Some (a, s) ->
  hasVideo s = true ->
  (getHeight (videoFrame s) <> mHeight m \/ getWidth (videoFrame s) <> mWidth m) ->
  update fuel m = Done m' ->
  exists tex' : Texture2d,
    getTexture m' = Some tex'
    /\ texName tex' <> texName tex
    /\ texWidth tex' = getWidth (videoFrame s)
    /\ texHeight tex' = getHeight (videoFrame s).
Proof.
  intros [Htex Hshape] Hinit Hget Hpump Hv Hdims Hrun.
  assert (Hold : (texName tex < nextName (glContext m))%N).
  { unfold getTexture in Hget.
    destruct Htex as [Hnone | Hcol]; [congruence |].
    destruct Hshape as [(_ & _ & _ & Hf) | (y & u & v & fbo & _ & _ & _ & Hf & _ & Hc & _)].
    - rewrite Hf, Hget in Hcol. discriminate.
    - rewrite Hf, Hget in Hcol. injection Hcol as ->. lia. }
  rewrite (update_presents fuel m a s Hinit Hpump Hv) in Hrun.
  set (m1 := setTransport a (decoder s) (timer s) m) in *.
  assert (Hneed : needsResize (videoFrame s) m1 = true).
  { apply needsResize_spec. right. right. right. right. exact Hdims. }
  destruct (present_Done_shader _ _ _ Hrun) as [prog Hprog].
  destruct (present_done (videoFrame s) m1 prog Hprog)
    as (m2 & fbo & y & u & v & Hrun2 & _ & _ & _ & Hf1 & _ & _ & _ & _
        & _ & _ & _ & _ & _ & _ & _ & Htex2 & _).
  rewrite Hrun in Hrun2. injection Hrun2 as <-.
  rewrite Hneed in Hf1.
  unfold resize, Fbo_create, Texture2d_create in Hf1. simpl in Hf1.
  injection Hf1 as <-.
  eexists. split; [exact Htex2 |]. cbn [getColorTexture texName texWidth texHeight].
  split; [lia |]. split; reflexivity.
Qed.

End Render.

(** ** Degenerate clocks *)

Lemma is_nan_spec (x : float) : is_nan x = true -> Prim2SF x = S754_nan.
Proof.
  unfold is_nan. rewrite FloatAxioms.eqb_spec.
  destruct (Prim2SF x) as [s | s | | s m e];
    try (destruct s; discriminate); [reflexivity |].
  unfold SFeqb, SFcompare. rewrite Z.compare_refl, Pos.compare_cont_refl.
  destruct s; discriminate.
Qed.

Lemma ltb_nan_l (x y : float) : is_nan x = true -> (x <? y)%float = false.
Proof. intros H. rewrite ltb_spec, (is_nan_spec x H). reflexivity. Qed.

Lemma ltb_nan_sum (x y b : float) : is_nan y = true -> (x <? y + b)%float = false.
Proof.
  intros H. rewrite ltb_spec, add_spec, (is_nan_spec y H).
  unfold SF64add, SFadd, SFltb, SFcompare. destruct (Prim2SF x); reflexivity.
Qed.

Lemma is_finite_spec (x : float) :
  is_finite x = true ->
  exists s, Prim2SF x = S754_zero s \/ exists m e, Prim2SF x = S754_finite s m e.
Proof.
  unfold is_finite, is_nan, is_infinity.
  rewrite !FloatAxioms.eqb_spec, FloatAxioms.abs_spec.
  destruct (Prim2SF x) as [s | s | | s m e]; intros H.
  - exists s. left. reflexivity.
  - destruct s; discriminate H.
  - discriminate H.
  - exists s. right. exists m, e. reflexivity.
Qed.

Section Degenerate.

Context {AudioFrame AudioFormat D A T : Type}.
Context {decoderOps : MovieDecoder.ops AudioFrame AudioFormat D}.
Context {rendererOps : AudioRenderer.ops AudioFrame AudioFormat A}.
Context {timerOps : Timer.ops T}.

Implicit Types (m : @MovieGl D A T) (s : @DrainState D T) (d : D) (t : T).

(** X12. When the clock value of the tick or the decoder's video clock is
    not a number, the drain pulls no video frame at all: the loop returns
    with its locals as initialized and the decoder untouched, so the tick
    accepts nothing. *)
Theorem nan_clock_pulls_nothing d t (currentPts : float) :
  is_nan currentPts = true \/ is_nan (MovieDecoder.getVideoClock d) = true ->
  decodeVideo d t currentPts = Some (drainInit d t).
Proof.
  intros Hnan. unfold decodeVideo. rewrite drainLoop_unfold, drainCond_eq.
  cbn [drainInit hasVideo decoder].
  assert (Hcmp : (MovieDecoder.getVideoClock d
                    <? currentPts + 1 / MovieDecoder.getFramesPerSecond d * 0.5)%float
                 = false).
  { destruct Hnan as [H | H]; [apply ltb_nan_sum | apply ltb_nan_l]; exact H. }
  rewrite Hcmp. reflexivity.
Qed.

(** X13. When the decoder reports zero frames per second, the frame
    duration is infinite and the first comparison of a tick admits a pull
    for any finite clock value and any finite video clock, however far
    ahead that is. *)
Theorem zero_fps_admits_first_pull d t (currentPts : float) :
  MovieDecoder.getFramesPerSecond d = 0%float ->
  is_finite currentPts = true ->
  is_finite (MovieDecoder.getVideoClock d) = true ->
  fst (drainCond currentPts (1 / MovieDecoder.getFramesPerSecond d) (drainInit d t))
  = true
  /\ decodeVideo d t currentPts
     = (let '(s2, brk) := drainBody (counted (drainInit d t)) in
        if brk then Some s2
        else drainLoop 100 currentPts (1 / MovieDecoder.getFramesPerSecond d) s2).
Proof.
  intros Hfps Hp Hc.
  assert (Hcmp : (MovieDecoder.getVideoClock d
                    <? currentPts + 1 / MovieDecoder.getFramesPerSecond d * 0.5)%float
                 = true).
  { rewrite Hfps. change (1 / 0 * 0.5)%float with infinity.
    rewrite ltb_spec, add_spec.
    change (Prim2SF infinity) with (S754_infinity false).
    destruct (is_finite_spec currentPts Hp) as [sp [-> | (mp & ep & ->)]];
      destruct (is_finite_spec _ Hc) as [sc [-> | (mc & ec & ->)]]; reflexivity. }
  split.
  - rewrite drainCond_eq. cbn [drainInit hasVideo decoder count].
    rewrite Hcmp. reflexivity.
  - unfold decodeVideo. rewrite drainLoop_unfold, drainCond_eq.
    cbn [drainInit hasVideo decoder count]. rewrite Hcmp. reflexivity.
Qed.

(** ** play and the cached size *)

Lemma int32_cast_range (z : Z) : - 2 ^ 31 <= int32_cast z < 2 ^ 31.
Proof.
  unfold int32_cast.
  pose proof (Z.mod_pos_bound (z + 2 ^ 31) (2 ^ 32) ltac:(lia)). lia.
Qed.

Lemma int32_cast_small (z : Z) : - 2 ^ 31 <= z < 2 ^ 31 -> int32_cast z = z.
Proof.
  intros Hz. unfold int32_cast. rewrite Z.mod_small by lia. lia.
Qed.

(** X14. [play] overwrites the cached width and height with what the
    started decoder reports, cast to 32 bits (unchanged when it fits).  A
    movie that holds its textures therefore reallocates at the next frame
    exactly when that frame's size differs from the decoder's report,
    whatever the size of the textures it holds. *)
Theorem play_resets_cached_size m (vf : VideoFrame) :
  MovieDecoder.isInitialized (mMovieDecoder m) = true ->
  mYPlane m <> None -> mUPlane m <> None -> mVPlane m <> None -> mFbo m <> None ->
  let d := MovieDecoder.start (mMovieDecoder m) in
  (- 2 ^ 31 <= mWidth (play m) < 2 ^ 31 /\ - 2 ^ 31 <= mHeight (play m) < 2 ^ 31)
  /\ (- 2 ^ 31 <= MovieDecoder.getFrameWidth d < 2 ^ 31 ->
      mWidth (play m) = MovieDecoder.getFrameWidth d)
  /\ (- 2 ^ 31 <= MovieDecoder.getFrameHeight d < 2 ^ 31 ->
      mHeight (play m) = MovieDecoder.getFrameHeight d)
  /\ (needsResize vf (play m) = true <->
      getHeight vf <> int32_cast (MovieDecoder.getFrameHeight d)
      \/ getWidth vf <> int32_cast (MovieDecoder.getFrameWidth d)).
Proof.
  intros Hinit Hy Hu Hv Hf d.
  assert (Hplay : play m
            = setSnapshot (int32_cast (MovieDecoder.getFrameWidth d))
                (int32_cast (MovieDecoder.getFrameHeight d))
                (MovieDecoder.getDuration d)
                (setTransport (mAudioRenderer m) d
                   (Timer.start 0%float (mUpdateTimer m)) m)).
  { unfold play. rewrite Hinit. reflexivity. }
  rewrite Hplay. cbn [setSnapshot setTransport mWidth mHeight].
  split; [split; apply int32_cast_range |].
  split; [apply int32_cast_small |]. split; [apply int32_cast_small |].
  rewrite needsResize_spec.
  cbn [setSnapshot setTransport mWidth mHeight mYPlane mUPlane mVPlane mFbo].
  tauto.
Qed.

(** ** A movie without program *)

Lemma step_keeps_shader m m' :
  step m m' -> mShader m' = mShader m.
Proof.
  intros [c Hcall]. destruct c as [fuel | | | | | seconds | loop]; simpl in Hcall.
  1: { unfold update in Hcall.
       destruct (MovieDecoder.isInitialized (mMovieDecoder m)); simpl in Hcall;
         [| injection Hcall as <-; reflexivity].
       destruct (pump fuel m) as [[a s] |]; [| discriminate].
       destruct (hasVideo s); [| injection Hcall as <-; reflexivity].
       destruct (present_Done_shader _ _ _ Hcall) as [prog Hprog].
       destruct (present_done (videoFrame s) _ prog Hprog)
         as (m2 & fbo & y & u & v & Hrun & _ & _ & _ & _ & _ & _ & _ & _
             & _ & _ & _ & Hs & _).
       rewrite Hcall in Hrun. injection Hrun as <-.
       rewrite Hs. symmetry. exact Hprog. }
  all: injection Hcall as <-;
       unfold play, stop, pause, resume, seekToTime, setLoop;
       destruct (MovieDecoder.isInitialized (mMovieDecoder m)); reflexivity.
Qed.

Lemma step_without_shader m m' :
  step m m' -> mShader m = None -> getTexture m = None -> getTexture m' = None.
Proof.
  intros [c Hcall] Hshader Hnone. destruct c as [fuel | | | | | seconds | loop].
  1: { simpl in Hcall. destruct (accepts fuel m) eqn:Hacc.
       - destruct (update_accepting fuel m m' Hcall Hacc)
           as (fbo & prog & y & cb & cr & w & lw & Hprog & _). congruence.
       - destruct (update_quiet fuel m m' Hcall Hacc) as [-> _]. exact Hnone. }
  all: apply (quietStep_absent m m'); [| exact Hnone];
       match type of Hcall with call ?c _ = _ => exists c end;
       split; [exact Hcall | exact I].
Qed.

(** X15. A movie constructed while the program fails to compile never
    gets one and never shows a frame: after any calls that complete,
    [mShader] is still null and [getTexture] returns no texture. *)
Theorem failed_compile_never_shows
    (create : string -> string -> GlslProg + string) (what : string)
    d t (g : GlContext) (out : list string) (playAudio : bool) m0 m :
  create vs fs = inr what ->
  MovieGl_new create d t g out playAudio = Some m0 ->
  rtc step m0 m ->
  mShader m = None /\ getTexture m = None.
Proof.
  intros Hfail Hnew Hsteps.
  assert (H0 : mShader m0 = None /\ getTexture m0 = None).
  { destruct (constructor_fields create d t g out playAudio m0 Hnew)
      as (_ & _ & _ & _ & Ht).
    split; [| exact Ht].
    unfold MovieGl_new, initializeShader in Hnew. rewrite Hfail in Hnew.
    destruct (negb _); [discriminate |].
    destruct (MovieDecoder.hasAudio d);
      [destruct (MovieDecoder.getAudioFormat d) as [fmt d1] |];
      injection Hnew as <-; reflexivity. }
  clear Hnew. induction Hsteps as [| m1 m2 m3 Hstep _ IH]; [exact H0 |].
  apply IH. destruct H0 as [Hs Ht]. split.
  - rewrite (step_keeps_shader m1 m2 Hstep). exact Hs.
  - exact (step_without_shader m1 m2 Hstep Hs Ht).
Qed.

End Degenerate.

(** * Further instances on the test doubles *)

(** A movie around a decoder that is not initialized. *)
Lemma uninitialized_calls_noop_witness :
  let m := Fixture.movie (Fixture.mkScript false true 0 30 [(0.0%float, Fixture.tiny 1)] [1%nat])
             (Some (Fixture.mkSpeaker 2 [] 1.0)) 0 (Some Fixture.program) in
  MovieDecoder.isInitialized (mMovieDecoder m) = false
  /\ ((forall c : Call, call c m = Done m) /\ checkNewFrame m = false).
Proof.
  intros m.
  assert (Hinit : MovieDecoder.isInitialized (mMovieDecoder m) = false) by reflexivity.
  split; [exact Hinit | exact (uninitialized_calls_noop m Hinit)].
Defined.

(** The timestamps 9.8, 9.9, 0.05: the tick ends on the wrap. *)
Lemma tick_timer_rebased_only_on_wrap_witness :
  let d := Fixture.script 9.8 [(9.9%float, Fixture.tiny 1); (0.05%float, Fixture.tiny 2)] [] in
  let m := Fixture.movie d None 10.0 (Some Fixture.program) in
  let s' := mkDrainState true 2 (Fixture.tiny 2) 9.9 (Fixture.script 0.05 [] []) 0.05%float in
  pump 1 m = Some (None, s')
  /\ (timer s' = mUpdateTimer m
      \/ (hasVideo s' = true
          /\ timer s' = Timer.start (MovieDecoder.getVideoClock (decoder s')) (mUpdateTimer m)
          /\ (MovieDecoder.getVideoClock (decoder s') <? currentVideoClock s')%float = true)).
Proof.
  intros d m s'.
  assert (Hpump : pump 1 m = Some (None, s')) by (vm_compute; reflexivity).
  split; [exact Hpump | exact (tick_timer_rebased_only_on_wrap 1 m None s' Hpump)].
Defined.

(** Three audio frames and a renderer with two free buffers. *)
Lemma audio_queue_drain_witness :
  let d := Fixture.script 0 [] [1; 2; 3]%nat in
  let a := Fixture.mkSpeaker 2 [] 0 in
  let a' := Fixture.mkSpeaker 0 [1; 2]%nat 0 in
  let d' := Fixture.script 0 [] [3%nat] in
  queueLoop 5 a d = Some (a', d')
  /\ exists (frames : list nat) (d1 : Fixture.Script),
       feeds frames d d1
       /\ a' = queueAll frames a
       /\ (forall n : nat, (n < length frames)%nat ->
             AudioRenderer.hasBufferSpace (queueAll (firstn n frames) a) = true)
       /\ ((AudioRenderer.hasBufferSpace a' = false /\ d' = d1)
           \/ (AudioRenderer.hasBufferSpace a' = true
               /\ MovieDecoder.decodeAudioFrame d1 = (None, d'))).
Proof.
  intros d a a' d'.
  assert (Hrun : queueLoop 5 a d = Some (a', d')) by reflexivity.
  split; [exact Hrun | exact (audio_queue_drain 5 a d a' d' Hrun)].
Defined.

(** The test renderer's free buffers are its [space]: with two of them
    and three audio frames queued in the decoder, two are taken. *)
Lemma audio_drain_returns_witness :
  let d := Fixture.script 0 [(0.0%float, Fixture.tiny 1)] [1; 2; 3]%nat in
  let a := Fixture.mkSpeaker 2 [] 0 in
  let m := Fixture.movie d (Some a) 0 (Some Fixture.program) in
  (forall (f : nat) (x : Fixture.Speaker),
     AudioRenderer.hasBufferSpace x = true ->
     (Fixture.space (AudioRenderer.queueFrame f x) < Fixture.space x)%nat)
  /\ exists m',
       update 3 m = Done m'
       /\ mAudioRenderer m' = Some (Fixture.mkSpeaker 0 [1; 2]%nat 0)
       /\ mMovieDecoder m' = Fixture.script 0 [] [3%nat].
Proof.
  intros d a m.
  assert (Htakes : forall (f : nat) (x : Fixture.Speaker),
            AudioRenderer.hasBufferSpace x = true ->
            (Fixture.space (AudioRenderer.queueFrame f x) < Fixture.space x)%nat).
  { intros f [sp q pos]. simpl. destruct sp; [discriminate | intros _; lia]. }
  assert (Hinit : MovieDecoder.isInitialized (mMovieDecoder m) = true) by reflexivity.
  assert (Ha : mAudioRenderer m = Some a) by reflexivity.
  assert (Hprog : mShader m = Some Fixture.program) by reflexivity.
  assert (Hfuel : (Fixture.space a < 3)%nat) by (simpl; lia).
  split; [exact Htakes |].
  destruct (audio_drain_returns Fixture.space Htakes 3 m a Fixture.program
              Hinit Ha Hprog Hfuel)
    as (a1 & d1 & s & Hq & _ & Hs & _ & m' & Hrun & Ha' & Hd' & _).
  vm_compute in Hq. injection Hq as <- <-.
  vm_compute in Hs. injection Hs as <-.
  exists m'. split; [exact Hrun |]. split; [exact Ha' | exact Hd'].
Defined.

(** Two readings of the timer, one renderer. *)
Lemma audio_clock_ignores_timer_witness :
  let d := Fixture.script 0 [(0.5%float, Fixture.tiny 1); (1.5%float, Fixture.tiny 2)] [1%nat] in
  let a := Fixture.mkSpeaker 2 [] 1.0 in
  let m := Fixture.movie d (Some a) 0 (Some Fixture.program) in
  mAudioRenderer m = Some a
  /\ match pump 2 m,
           pump 2 (setTransport (mAudioRenderer m) (mMovieDecoder m) 99.0%float m) with
     | Some (a1, s1), Some (a2, s2) => a1 = a2 /\ sameButTimer s1 s2
     | None, None => True
     | _, _ => False
     end.
Proof.
  intros d a m.
  assert (Ha : mAudioRenderer m = Some a) by reflexivity.
  split; [exact Ha | exact (audio_clock_ignores_timer 2 m a 99.0%float Ha)].
Defined.

(** A constructed movie after [play] and a tick that shows a frame. *)
Lemma reachable_cache_shape_witness :
  let d := Fixture.script 0 [(0.0%float, Fixture.tiny 7)] [] in
  let m0 := Fixture.movie d None 0 (Some Fixture.program) in
  let m := Fixture.after (CallUpdate 1) (play m0) in
  reachable m /\ cacheInv m.
Proof.
  intros d m0 m.
  assert (Hreach : reachable m).
  { exists Fixture.compiles, d, 0%float, Fixture.emptyContext, [], false, m0.
    split; [reflexivity |].
    apply rtc_l with (play m0); [exists CallPlay; reflexivity |].
    apply rtc_once. exists (CallUpdate 1). vm_compute. reflexivity. }
  split; [exact Hreach | exact (reachable_cache_shape m Hreach)].
Defined.

(** A tick on a fresh movie that accepts a small frame. *)
Lemma tick_renders_accepted_frame_witness :
  let d := Fixture.script 0 [(0.0%float, Fixture.tiny 7)] [] in
  let m := Fixture.movie d None 0 (Some Fixture.program) in
  let s := mkDrainState true 1 (Fixture.tiny 7) 0 (Fixture.script 0 [] []) 0%float in
  cacheInv m
  /\ pump 1 m = Some (None, s)
  /\ exists m' (tex y u v : Texture2d),
       update 1 m = Done m'
       /\ getTexture m' = Some tex
       /\ mYPlane m' = Some y /\ mUPlane m' = Some u /\ mVPlane m' = Some v
       /\ imageOf (glContext m') y = planeBytes y (getYPlane (videoFrame s))
       /\ imageOf (glContext m') u = planeBytes u (getUPlane (videoFrame s))
       /\ imageOf (glContext m') v = planeBytes v (getVPlane (videoFrame s))
       /\ imageOf (glContext m') tex
          = Rendered Fixture.program drawUniforms
              (planeBytes y (getYPlane (videoFrame s)))
              (planeBytes u (getUPlane (videoFrame s)))
              (planeBytes v (getVPlane (videoFrame s)))
              (getWidth (videoFrame s)) (texWidth y).
Proof.
  intros d m s.
  assert (Hinv : cacheInv m).
  { split; [left; reflexivity |]. left. repeat split; reflexivity. }
  assert (Hinit : MovieDecoder.isInitialized (mMovieDecoder m) = true) by reflexivity.
  assert (Hpump : pump 1 m = Some (None, s)) by (vm_compute; reflexivity).
  assert (Hv : hasVideo s = true) by reflexivity.
  assert (Hprog : mShader m = Some Fixture.program) by reflexivity.
  split; [exact Hinv |]. split; [exact Hpump |].
  exact (tick_renders_accepted_frame 1 m None s Fixture.program
           Hinv Hinit Hpump Hv Hprog).
Defined.

(** A movie showing a 2x2 frame receives a 640x480 one. *)
Lemma resize_gives_new_texture_witness :
  let d := Fixture.script 0
             [(0.0%float, Fixture.tiny 7); (0.01%float, Fixture.frame 1 2 3)] [] in
  let m := Fixture.after (CallUpdate 1) (Fixture.movie d None 0 (Some Fixture.program)) in
  let m' := Fixture.after (CallUpdate 1) m in
  let tex := mkTexture2d 3 2 2 in
  getTexture m = Some tex
  /\ update 1 m = Done m'
  /\ exists tex' : Texture2d,
       getTexture m' = Some tex'
       /\ texName tex' <> texName tex
       /\ texWidth tex' = 640 /\ texHeight tex' = 480.
Proof.
  intros d m m' tex.
  set (s := mkDrainState true 1 (Fixture.frame 1 2 3) 0.01
              (Fixture.script 0.01 [] []) 0%float).
  assert (Hinv : cacheInv m).
  { split; [right; vm_compute; reflexivity |]. right.
    exists (mkTexture2d 0 4 2), (mkTexture2d 1 2 1), (mkTexture2d 2 2 1),
           (mkFbo 4 2 2 (mkTexture2d 3 2 2)).
    vm_compute. repeat split; reflexivity. }
  assert (Hinit : MovieDecoder.isInitialized (mMovieDecoder m) = true)
    by (vm_compute; reflexivity).
  assert (Hget : getTexture m = Some tex) by (vm_compute; reflexivity).
  assert (Hpump : pump 1 m = Some (None, s)) by (vm_compute; reflexivity).
  assert (Hv : hasVideo s = true) by reflexivity.
  assert (Hdims : getHeight (videoFrame s) <> mHeight m
                  \/ getWidth (videoFrame s) <> mWidth m)
    by (left; vm_compute; discriminate).
  assert (Hrun : update 1 m = Done m') by (vm_compute; reflexivity).
  split; [exact Hget |]. split; [exact Hrun |].
  exact (resize_gives_new_texture 1 m None s tex m'
           Hinv Hinit Hget Hpump Hv Hdims Hrun).
Defined.

(** A decoder whose video clock is not a number. *)
Lemma nan_clock_pulls_nothing_witness :
  let d := Fixture.script nan [(0.0%float, Fixture.tiny 1)] [] in
  (is_nan 1.0 = true \/ is_nan (MovieDecoder.getVideoClock d) = true)
  /\ decodeVideo d 0%float 1.0 = Some (drainInit d 0%float).
Proof.
  intros d.
  assert (Hnan : is_nan 1.0 = true \/ is_nan (MovieDecoder.getVideoClock d) = true)
    by (right; reflexivity).
  split; [exact Hnan | exact (nan_clock_pulls_nothing d 0%float 1.0 Hnan)].
Defined.

(** A decoder reporting zero frames per second, a minute ahead of the clock. *)
Lemma zero_fps_admits_first_pull_witness :
  let d := Fixture.mkScript true false 61.0 0 [(62.0%float, Fixture.tiny 1)] [] in
  MovieDecoder.getFramesPerSecond d = 0%float
  /\ fst (drainCond 1.0 (1 / MovieDecoder.getFramesPerSecond d) (drainInit d 0%float))
     = true.
Proof.
  intros d.
  assert (Hfps : MovieDecoder.getFramesPerSecond d = 0%float) by reflexivity.
  assert (Hp : is_finite 1.0 = true) by reflexivity.
  assert (Hc : is_finite (MovieDecoder.getVideoClock d) = true) by reflexivity.
  split; [exact Hfps |].
  exact (proj1 (zero_fps_admits_first_pull d 0%float 1.0 Hfps Hp Hc)).
Defined.

(** A movie holding 2x2 textures, on a decoder that reports 640x480. *)
Lemma play_resets_cached_size_witness :
  let d := Fixture.script 0 [(0.0%float, Fixture.tiny 7)] [] in
  let m := Fixture.after (CallUpdate 1) (Fixture.movie d None 0 (Some Fixture.program)) in
  (mWidth m, mHeight m) = (2, 2)
  /\ needsResize (Fixture.tiny 8) m = false
  /\ (mWidth (play m), mHeight (play m)) = (640, 480)
  /\ needsResize (Fixture.tiny 8) (play m) = true.
Proof.
  intros d m.
  assert (Hinit : MovieDecoder.isInitialized (mMovieDecoder m) = true)
    by (vm_compute; reflexivity).
  assert (Hy : mYPlane m <> None) by (vm_compute; discriminate).
  assert (Hu : mUPlane m <> None) by (vm_compute; discriminate).
  assert (Hv : mVPlane m <> None) by (vm_compute; discriminate).
  assert (Hf : mFbo m <> None) by (vm_compute; discriminate).
  destruct (play_resets_cached_size m (Fixture.tiny 8) Hinit Hy Hu Hv Hf)
    as (_ & Hw & Hh & Hneed).
  split; [vm_compute; reflexivity |]. split; [vm_compute; reflexivity |].
  split.
  - rewrite Hw, Hh by (simpl; lia). reflexivity.
  - apply Hneed. left. vm_compute. discriminate.
Defined.

(** A failed compile, then [play] and [pause]. *)
Lemma failed_compile_never_shows_witness :
  let d := Fixture.script 0 [(0.0%float, Fixture.tiny 1)] [] in
  let m0 := Fixture.movie d None 0 None in
  Fixture.failsToCompile vs fs = inr "GlslProgCompileExc"%string
  /\ rtc step m0 (pause (play m0))
  /\ mShader (pause (play m0)) = None
  /\ getTexture (pause (play m0)) = None.
Proof.
  intros d m0.
  assert (Hfail : Fixture.failsToCompile vs fs = inr "GlslProgCompileExc"%string)
    by reflexivity.
  assert (Hnew : MovieGl_new Fixture.failsToCompile d 0%float Fixture.emptyContext [] false
                 = Some (setShader None ["GlslProgCompileExc"%string] m0))
    by reflexivity.
  assert (Hsteps : rtc step (setShader None ["GlslProgCompileExc"%string] m0)
                     (pause (play (setShader None ["GlslProgCompileExc"%string] m0)))).
  { apply rtc_l with (play (setShader None ["GlslProgCompileExc"%string] m0));
      [exists CallPlay; reflexivity |].
    apply rtc_once. exists CallPause. reflexivity. }
  destruct (failed_compile_never_shows Fixture.failsToCompile _ d 0%float
              Fixture.emptyContext [] false _ _ Hfail Hnew Hsteps) as [Hs Ht].
  split; [exact Hfail |]. split.
  - apply rtc_l with (play m0); [exists CallPlay; reflexivity |].
    apply rtc_once. exists CallPause. reflexivity.
  - split; [exact Hs | exact Ht].
Defined.
